(** * Calendar and concert-search tools: a shallow embedding

    The program under study is [wise_examples/simple_calendar.py]: a set of
    tool entry points that reshape the JSON answers of a calendar service and
    of a ticket vendor.  The embedding keeps Python's dynamic view of a JSON
    document: every value is a [json], every operation that Python can refuse
    ([.get] on a list, [x[0]] on an empty list, comparing a naive with an
    aware [datetime], ...) returns in [result] and names the exception.
    Network calls are threaded through an explicit world together with a log
    of what was sent. *)

From Stdlib Require Import ZArith String Ascii List Bool Lia.
From Stdlib Require Import PrimFloat.
From stdpp Require Import gmap strings list fin_maps pretty.

Set Warnings "-register-all".
#[local] Open Scope string_scope.
#[local] Open Scope Z_scope.

(** ** Python values, as [json.loads] hands them to the program *)

Inductive json : Type :=
  | JNull
  | JBool (b : bool)
  | JInt (z : Z)
  | JFloat (f : float)
  | JStr (s : string)
  | JArr (l : list json)
  | JObj (m : gmap string json).

(** The exceptions the program can meet.  [HTTPError] stands for every
    [httpx.HTTPError] (transport failures and [raise_for_status]); a body
    that is not JSON is a [ValueError], as [json.JSONDecodeError] is one. *)
Inductive exn : Type :=
  | AttributeError
  | TypeError
  | ValueError
  | KeyError
  | IndexError
  | OverflowError
  | HTTPError.

Inductive result (A : Type) : Type :=
  | Ok (a : A)
  | Raise (e : exn).
Arguments Ok {A} a.
Arguments Raise {A} e.

Definition bind {A B : Type} (m : result A) (k : A -> result B) : result B :=
  match m with
  | Ok a => k a
  | Raise e => Raise e
  end.

Declare Scope py_scope.
Delimit Scope py_scope with py.
Notation "'let*' x ':=' m 'in' k" := (bind m (fun x => k))
  (at level 10, x pattern, m at level 100, k at level 200) : py_scope.
#[local] Open Scope py_scope.

Fixpoint mapM {A B : Type} (f : A -> result B) (l : list A) : result (list B) :=
  match l with
  | [] => Ok []
  | x :: r =>
      let* y := f x in
      let* ys := mapM f r in
      Ok (y :: ys)
  end.

(** ** String helpers ([str] methods the program calls)

    A character is a code point below 256. *)

Module Str.

(** [str.isspace] on one character. *)
Definition is_space (c : ascii) : bool :=
  let n := Z.of_nat (nat_of_ascii c) in
  ((9 <=? n) && (n <=? 13)) || ((28 <=? n) && (n <=? 32))
  || (n =? 133) || (n =? 160).

Fixpoint lstrip (s : string) : string :=
  match s with
  | String c r => if is_space c then lstrip r else s
  | EmptyString => EmptyString
  end.

(** Drops the trailing characters that satisfy [p]. *)
Fixpoint rstrip_with (p : ascii -> bool) (s : string) : string :=
  match s with
  | EmptyString => EmptyString
  | String c r =>
      match rstrip_with p r with
      | EmptyString => if p c then EmptyString else String c EmptyString
      | r' => String c r'
      end
  end.

(** [s.strip()] *)
Definition strip (s : string) : string := rstrip_with is_space (lstrip s).

Definition is_Z (c : ascii) : bool := Ascii.eqb c "Z"%char.

(** [s.endswith('Z')] *)
Fixpoint endswith_Z (s : string) : bool :=
  match s with
  | EmptyString => false
  | String c EmptyString => is_Z c
  | String _ r => endswith_Z r
  end.

(** [s.rstrip('Z')] *)
Definition rstrip_Z (s : string) : string := rstrip_with is_Z s.

(** [s.replace("Z", "+00:00")] *)
Fixpoint replace_Z (s : string) : string :=
  match s with
  | EmptyString => EmptyString
  | String c r =>
      if is_Z c then "+00:00" +:+ replace_Z r else String c (replace_Z r)
  end.

(** [s.split(",")]: never empty, [""] splits into [[""]]. *)
Fixpoint split_comma (s : string) : list string :=
  match s with
  | EmptyString => [EmptyString]
  | String c r =>
      if Ascii.eqb c ","%char then EmptyString :: split_comma r
      else match split_comma r with
           | w :: ws => String c w :: ws
           | [] => [String c EmptyString]
           end
  end.

(** [sep.join(parts)] on strings. *)
Fixpoint join (sep : string) (parts : list string) : string :=
  match parts with
  | [] => EmptyString
  | [p] => p
  | p :: r => p +:+ sep +:+ join sep r
  end.

(** [needle in hay] for two strings. *)
Definition contains (needle hay : string) : bool :=
  match String.index 0 needle hay with
  | Some _ => true
  | None => false
  end.

Fixpoint chars (s : string) : list string :=
  match s with
  | EmptyString => []
  | String c r => String c EmptyString :: chars r
  end.

End Str.

(** ** Python's operations on a JSON value *)

Module Py.

(** [bool(v)] *)
Definition truthy (v : json) : bool :=
  match v with
  | JNull => false
  | JBool b => b
  | JInt z => negb (z =? 0)
  | JFloat f => negb (PrimFloat.eqb f 0%float)
  | JStr s => negb (String.eqb s "")
  | JArr l => match l with [] => false | _ => true end
  | JObj m => negb (bool_decide (m = ∅))
  end.

(** [v.get(k, dflt)]: only a dict has the method. *)
Definition get (v : json) (k : string) (dflt : json) : result json :=
  match v with
  | JObj m => Ok (default dflt (m !! k))
  | _ => Raise AttributeError
  end.

(** [v == s] for a string literal [s]. *)
Definition eq_str (v : json) (s : string) : bool :=
  match v with
  | JStr t => String.eqb t s
  | _ => false
  end.

(** [k in v] for a string literal [k]: key of a dict, element of a list,
    substring of a string; the other values are not containers. *)
Definition contains (k : string) (v : json) : result bool :=
  match v with
  | JObj m => Ok (bool_decide (is_Some (m !! k)))
  | JArr l => Ok (existsb (fun x => eq_str x k) l)
  | JStr s => Ok (Str.contains k s)
  | _ => Raise TypeError
  end.

(** [v[k]] for a string key. *)
Definition getitem (v : json) (k : string) : result json :=
  match v with
  | JObj m => match m !! k with
              | Some x => Ok x
              | None => Raise KeyError
              end
  | _ => Raise TypeError
  end.

(** [v[0]].  A JSON object has string keys only, so [0] is never one. *)
Definition getitem0 (v : json) : result json :=
  match v with
  | JArr (x :: _) => Ok x
  | JArr [] => Raise IndexError
  | JStr (String c _) => Ok (JStr (String c EmptyString))
  | JStr EmptyString => Raise IndexError
  | JObj _ => Raise KeyError
  | _ => Raise TypeError
  end.

(** [v[k] = x] *)
Definition setitem (v : json) (k : string) (x : json) : result json :=
  match v with
  | JObj m => Ok (JObj (<[k := x]> m))
  | _ => Raise TypeError
  end.

(** The elements [for x in v] visits. *)
Definition iter (v : json) : result (list json) :=
  match v with
  | JArr l => Ok l
  | JObj m => Ok (JStr <$> (map_to_list m).*1)
  | JStr s => Ok (JStr <$> Str.chars s)
  | _ => Raise TypeError
  end.

(** [len(v)] *)
Definition len (v : json) : result nat :=
  match v with
  | JArr l => Ok (length l)
  | JObj m => Ok (size m)
  | JStr s => Ok (String.length s)
  | _ => Raise TypeError
  end.

(** [sep.join(parts)]: every part has to be a [str]. *)
Definition join (sep : string) (parts : list json) : result string :=
  let* ss := mapM (fun v => match v with
                            | JStr s => Ok s
                            | _ => Raise TypeError
                            end) parts in
  Ok (Str.join sep ss).

End Py.

(** ** [datetime]

    A [datetime] is kept as the number of microseconds its own calendar
    fields lie after 0001-01-01T00:00:00, with the UTC offset of its
    [tzinfo] (in microseconds) when it has one.  A naive value, as
    [fromisoformat] returns for a string without offset, has none. *)

Record datetime : Type := Datetime {
  dt_wall : Z;
  dt_utcoffset : option Z
}.

Definition us_per_hour : Z := 3600 * 1000000.

(** [datetime.max] is 9999-12-31T23:59:59.999999, day 3652059 of the
    proleptic calendar. *)
Definition dt_max_wall : Z := 3652059 * 86400 * 1000000 - 1.

Definition aware (d : datetime) : bool :=
  match dt_utcoffset d with
  | Some _ => true
  | None => false
  end.

(** The point on the UTC time line an aware value denotes. *)
Definition instant (d : datetime) : Z :=
  dt_wall d - default 0 (dt_utcoffset d).

(** Ordering comparisons: two naive values compare by their fields, two
    aware ones by their instants, and Python refuses to order a naive value
    against an aware one. *)
Definition dt_compare (a b : datetime) : result comparison :=
  match dt_utcoffset a, dt_utcoffset b with
  | None, None => Ok (dt_wall a ?= dt_wall b)
  | Some oa, Some ob => Ok ((dt_wall a - oa) ?= (dt_wall b - ob))
  | _, _ => Raise TypeError
  end.

(** [a <= b] *)
Definition dt_le (a b : datetime) : result bool :=
  let* c := dt_compare a b in
  Ok (match c with Gt => false | _ => true end).

(** [a < b] *)
Definition dt_lt (a b : datetime) : result bool :=
  let* c := dt_compare a b in
  Ok (match c with Lt => true | _ => false end).

(** [a > b] *)
Definition dt_gt (a b : datetime) : result bool :=
  let* c := dt_compare a b in
  Ok (match c with Gt => true | _ => false end).

(** [d.replace(tzinfo=timezone.utc)]: the fields stay, the zone is set. *)
Definition replace_tzinfo_utc (d : datetime) : datetime :=
  {| dt_wall := dt_wall d; dt_utcoffset := Some 0 |}.

(** [d + timedelta(hours=h)]: the sum has to stay a date of years 1..9999. *)
Definition add_hours (d : datetime) (h : Z) : result datetime :=
  let w := dt_wall d + h * us_per_hour in
  if (0 <=? w) && (w <=? dt_max_wall)
  then Ok {| dt_wall := w; dt_utcoffset := dt_utcoffset d |}
  else Raise OverflowError.

(** [min(l)] and [max(l)] as the interpreter runs them: the first element is
    the candidate, a later one takes its place when it compares strictly
    below (above) the candidate. *)
Fixpoint min_from (cur : datetime) (l : list datetime) : result datetime :=
  match l with
  | [] => Ok cur
  | x :: r =>
      let* b := dt_lt x cur in
      min_from (if b then x else cur) r
  end.

Definition py_min (l : list datetime) : result datetime :=
  match l with
  | [] => Raise ValueError
  | x :: r => min_from x r
  end.

Fixpoint max_from (cur : datetime) (l : list datetime) : result datetime :=
  match l with
  | [] => Ok cur
  | x :: r =>
      let* b := dt_gt x cur in
      max_from (if b then x else cur) r
  end.

Definition py_max (l : list datetime) : result datetime :=
  match l with
  | [] => Raise ValueError
  | x :: r => max_from x r
  end.

(** ** The network

    One HTTP exchange: what is sent, and what comes back. *)

Record request : Type := Request {
  rq_method : string;
  rq_url : string;
  rq_params : option (gmap string json);
  rq_headers : gmap string string;
  rq_json : option json;
  rq_timeout : option Z
}.

(** [NoReply] is a transport failure; a reply carries its status code and
    its body, [None] when the body is not a JSON text. *)
Inductive reply : Type :=
  | NoReply
  | Reply (status : Z) (body : option json).

(** [response.raise_for_status()]: anything but 2xx raises. *)
Definition raise_for_status (r : reply) : result (Z * option json) :=
  match r with
  | NoReply => Raise HTTPError
  | Reply status body =>
      if (200 <=? status) && (status <? 300) then Ok (status, body)
      else Raise HTTPError
  end.

(** [response.json()] *)
Definition response_json (body : option json) : result json :=
  match body with
  | Some v => Ok v
  | None => Raise ValueError
  end.

(** What the program did to the outside: requests sent and lines printed. *)
Inductive io_event : Type :=
  | Sent (r : request)
  | Printed (e : exn).

Definition CALENDAR_API_BASE : string := "https://www.googleapis.com/calendar/v3".
Definition TICKETMASTER_API_KEY : string := "gpMqpLqs1VDGhY1mgRhT0UOSh1EgHSM1".
Definition TICKETMASTER_API_BASE : string := "https://app.ticketmaster.com/discovery/v2".

Definition nl : string := String (ascii_of_nat 10) EmptyString.

(** ** The program *)

Section Program.

(** Library functions the program calls and the environment it runs in:
    - [fromisoformat s] is [datetime.fromisoformat(s)], [None] when it
      raises [ValueError];
    - [strftime d] is [d.strftime("%Y-%m-%dT%H:%M:%SZ")];
    - [isoformat d] is [d.isoformat()];
    - [str_other v] is [str(v)] for a float, a list or a dict;
    - [ACCESS_TOKEN] is [os.getenv("ACCESS_TOKEN")];
    - [http] is the remote side: it answers a request and moves on. *)
Variable fromisoformat : string -> option datetime.
Variable strftime : datetime -> string.
Variable isoformat : datetime -> string.
Variable str_other : json -> string.
Variable ACCESS_TOKEN : option string.
Variable world : Type.
Variable http : request -> world -> reply * world.

Definition datetime_fromisoformat (s : string) : result datetime :=
  match fromisoformat s with
  | Some d => Ok d
  | None => Raise ValueError
  end.

(** [str(v)], which is what an f-string field [{v}] prints. *)
Definition py_str (v : json) : string :=
  match v with
  | JStr s => s
  | JNull => "None"
  | JBool true => "True"
  | JBool false => "False"
  | JInt z => pretty z
  | _ => str_other v
  end.

(** *** Running against the network *)

Definition state : Type := world * list io_event.
Definition io (A : Type) : Type := state -> result A * state.

Definition io_ret {A : Type} (a : A) : io A := fun st => (Ok a, st).

Definition io_raise {A : Type} (e : exn) : io A := fun st => (Raise e, st).

Definition io_lift {A : Type} (m : result A) : io A := fun st => (m, st).

Definition io_bind {A B : Type} (m : io A) (k : A -> io B) : io B :=
  fun st =>
    match m st with
    | (Ok a, st') => k a st'
    | (Raise e, st') => (Raise e, st')
    end.

(** [try: m  except Exception as e: h e] *)
Definition io_try {A : Type} (m : io A) (h : exn -> io A) : io A :=
  fun st =>
    match m st with
    | (Ok a, st') => (Ok a, st')
    | (Raise e, st') => h e st'
    end.

(** [print(...)] of a message built from the exception [e]. *)
Definition print_error (e : exn) : io unit :=
  fun st => (Ok tt, (st.1, (st.2 ++ [Printed e])%list)).

(** [await client.request(...)]: the request is logged, the world answers. *)
Definition send (r : request) : io reply :=
  fun st =>
    let '(rep, w) := http r st.1 in
    (Ok rep, (w, (st.2 ++ [Sent r])%list)).

Notation "'let!' x ':=' m 'in' k" := (io_bind m (fun x => k))
  (at level 10, x pattern, m at level 100, k at level 200).

Definition _get_google_token : option string := ACCESS_TOKEN.

(** [f"Bearer {access_token}"] *)
Definition bearer (access_token : option string) : string :=
  "Bearer " +:+ match access_token with
                | Some t => t
                | None => "None"
                end.

Definition _fetch_calendar_data (access_token : option string) (url : string)
    (params : option (gmap string json)) : io json :=
  let headers : gmap string string := {[ "Authorization" := bearer access_token ]} in
  let! response := send {| rq_method := "GET"; rq_url := url;
                           rq_params := params; rq_headers := headers;
                           rq_json := None; rq_timeout := None |} in
  let! (_, body) := io_lift (raise_for_status response) in
  io_lift (response_json body).

Definition _modify_calendar_data (access_token : option string) (url : string)
    (method : string) (json_payload : option json) : io json :=
  let headers : gmap string string := {[ "Authorization" := bearer access_token ]} in
  let headers :=
    if match json_payload with Some v => Py.truthy v | None => false end
    then <[ "Content-Type" := "application/json" ]> headers
    else headers in
  let! response := send {| rq_method := method; rq_url := url;
                           rq_params := None; rq_headers := headers;
                           rq_json := json_payload; rq_timeout := None |} in
  let! (status_code, body) := io_lift (raise_for_status response) in
  if status_code =? 204 then io_ret (JObj {[ "success" := JBool true ]})
  else io_lift (response_json body).

(** *** Calendar documents *)

(** One line of the attendee list. *)
Definition format_attendee (attendee : json) : result string :=
  let* email := Py.get attendee "email" (JStr "Unknown") in
  let* name := Py.get attendee "displayName" email in
  let* status := Py.get attendee "responseStatus" (JStr "needsAction") in
  let* org := Py.get attendee "organizer" JNull in
  let organizer := if Py.truthy org then " (Organizer)" else "" in
  Ok (py_str name +:+ " - " +:+ py_str status +:+ organizer).

(** The loop over the entry points: the [uri] of the first entry whose
    type is ["video"], the empty string when there is none. *)
Fixpoint first_video_link (entry_points : list json) : result json :=
  match entry_points with
  | [] => Ok (JStr "")
  | entry :: rest =>
      let* t := Py.get entry "entryPointType" JNull in
      if Py.eq_str t "video" then Py.get entry "uri" (JStr "")
      else first_video_link rest
  end.

Definition format_event_to_document (event : json) : result (gmap string json) :=
  let* summary := Py.get event "summary" (JStr "(No title)") in
  let* description := Py.get event "description" (JStr "") in
  let* location := Py.get event "location" (JStr "") in
  let* html_link := Py.get event "htmlLink" (JStr "") in
  let* start := Py.get event "start" (JObj ∅) in
  let* end_ := Py.get event "end" (JObj ∅) in
  let* start_date := Py.get start "date" (JStr "Not specified") in
  let* start_time := Py.get start "dateTime" start_date in
  let* end_date := Py.get end_ "date" (JStr "Not specified") in
  let* end_time := Py.get end_ "dateTime" end_date in
  let* attendees := Py.get event "attendees" (JArr []) in
  let* attendee_list := Py.iter attendees in
  let* attendees_formatted := mapM format_attendee attendee_list in
  let* conference_data := Py.get event "conferenceData" (JObj ∅) in
  let* conference_link :=
    if Py.truthy conference_data then
      let* entry_points := Py.get conference_data "entryPoints" (JArr []) in
      let* entries := Py.iter entry_points in
      first_video_link entries
    else Ok (JStr "") in
  let content := "# " +:+ py_str summary +:+ nl +:+ nl in
  let content :=
    if Py.truthy description
    then content +:+ "**Description:** " +:+ py_str description +:+ nl +:+ nl
    else content in
  let content := content +:+ "**Start:** " +:+ py_str start_time +:+ nl in
  let content := content +:+ "**End:** " +:+ py_str end_time +:+ nl +:+ nl in
  let content :=
    if Py.truthy location
    then content +:+ "**Location:** " +:+ py_str location +:+ nl +:+ nl
    else content in
  let content :=
    match attendees_formatted with
    | [] => content
    | _ =>
        let content := content +:+ "**Attendees ("
                       +:+ pretty (length attendees_formatted) +:+ "):**" +:+ nl in
        let content :=
          fold_left (fun acc attendee => acc +:+ "  - " +:+ attendee +:+ nl)
                    attendees_formatted content in
        content +:+ nl
    end in
  let content :=
    if Py.truthy conference_link
    then content +:+ "**Video Conference:** " +:+ py_str conference_link +:+ nl +:+ nl
    else content in
  let* status := Py.get event "status" (JStr "confirmed") in
  let content := content +:+ "**Status:** " +:+ py_str status +:+ nl in
  let content :=
    if Py.truthy html_link
    then content +:+ "**Link:** " +:+ py_str html_link +:+ nl
    else content in
  let* id := Py.get event "id" JNull in
  let* kind := Py.get event "kind" (JStr "calendar#event") in
  let* attendees_count := Py.len attendees in
  Ok (<[ "id" := id ]>
     (<[ "kind" := kind ]>
     (<[ "title" := summary ]>
     (<[ "url" := html_link ]>
     (<[ "content" := JStr (Str.strip content) ]>
     (<[ "start_time" := start_time ]>
     (<[ "end_time" := end_time ]>
     (<[ "location" := location ]>
     (<[ "attendees_count" := JInt (Z.of_nat attendees_count) ]> ∅))))))))).

(** *** Ticket events *)

Definition parse_event_datetime (event : json)
    : result (option datetime * option datetime) :=
  let* dates := Py.get event "dates" (JObj ∅) in
  let* dates_info := Py.get dates "start" (JObj ∅) in
  let* date_str := Py.get dates_info "localDate" JNull in
  let* time_str := Py.get dates_info "localTime" (JStr "00:00:00") in
  if negb (Py.truthy date_str) then Ok (None, None)
  else
    let* parsed := datetime_fromisoformat (py_str date_str +:+ "T" +:+ py_str time_str) in
    let start_datetime := replace_tzinfo_utc parsed in
    let* dates := Py.get event "dates" (JObj ∅) in
    let* end_info := Py.get dates "end" (JObj ∅) in
    let* end_date_str := Py.get end_info "localDate" JNull in
    let* end_time_str := Py.get end_info "localTime" JNull in
    let* end_datetime :=
      if Py.truthy end_date_str && Py.truthy end_time_str then
        let* parsed_end :=
          datetime_fromisoformat (py_str end_date_str +:+ "T" +:+ py_str end_time_str) in
        Ok (replace_tzinfo_utc parsed_end)
      else add_hours start_datetime 3 in
    Ok (Some start_datetime, Some end_datetime).

(** [x.isoformat() if x else "N/A"]; a [datetime] is always true. *)
Definition iso_or_na (x : option datetime) : json :=
  match x with
  | Some d => JStr (isoformat d)
  | None => JStr "N/A"
  end.

(** [venue.get(outer, {}).get(inner)] is tested, and when it is true the
    part [venue[outer][inner]] is appended. *)
Definition address_part (venue : json) (outer inner : string)
    (address_parts : list json) : result (list json) :=
  let* o := Py.get venue outer (JObj ∅) in
  let* i := Py.get o inner JNull in
  if Py.truthy i then
    let* o' := Py.getitem venue outer in
    let* part := Py.getitem o' inner in
    Ok (address_parts ++ [part])%list
  else Ok address_parts.

(** The test ["_embedded" in event and "venues" in event["_embedded"]]. *)
Definition has_venues (event : json) : result bool :=
  let* has_embedded := Py.contains "_embedded" event in
  if has_embedded then
    let* embedded := Py.getitem event "_embedded" in
    Py.contains "venues" embedded
  else Ok false.

(** The venue part of the details: name and address. *)
Definition venue_details (event : json) (details : gmap string json)
    : result (gmap string json) :=
  let* found := has_venues event in
  if found then
    let* embedded := Py.getitem event "_embedded" in
    let* venues := Py.getitem embedded "venues" in
    let* venue := Py.getitem0 venues in
    let* venue_name := Py.get venue "name" (JStr "N/A") in
    let details := <[ "venue_name" := venue_name ]> details in
    let address_parts : list json := [] in
    let* address_parts := address_part venue "address" "line1" address_parts in
    let* address_parts := address_part venue "city" "name" address_parts in
    let* address_parts := address_part venue "state" "stateCode" address_parts in
    let* postal := Py.get venue "postalCode" JNull in
    let* address_parts :=
      if Py.truthy postal then
        let* part := Py.getitem venue "postalCode" in
        Ok (address_parts ++ [part])%list
      else Ok address_parts in
    let* address_parts := address_part venue "country" "countryCode" address_parts in
    let* venue_address :=
      match address_parts with
      | [] => Ok "N/A"
      | _ => Py.join ", " address_parts
      end in
    Ok (<[ "venue_address" := JStr venue_address ]> details)
  else
    Ok (<[ "venue_address" := JStr "N/A" ]>
       (<[ "venue_name" := JStr "N/A" ]> details)).

(** [classifications[0].get(field, {}).get("name", "N/A")] *)
Definition classification_name (classifications : json) (field : string)
    : result json :=
  let* first := Py.getitem0 classifications in
  let* sub := Py.get first field (JObj ∅) in
  Py.get sub "name" (JStr "N/A").

Definition classification_details (event : json) (details : gmap string json)
    : result (gmap string json) :=
  let* classifications := Py.get event "classifications" (JArr []) in
  if Py.truthy classifications then
    let* category := classification_name classifications "segment" in
    let details := <[ "category" := category ]> details in
    let* genre := classification_name classifications "genre" in
    let details := <[ "genre" := genre ]> details in
    let* subgenre := classification_name classifications "subGenre" in
    Ok (<[ "subgenre" := subgenre ]> details)
  else
    Ok (<[ "subgenre" := JStr "N/A" ]>
       (<[ "genre" := JStr "N/A" ]>
       (<[ "category" := JStr "N/A" ]> details))).

Definition price_details (event : json) (details : gmap string json)
    : result (gmap string json) :=
  let* price_ranges := Py.get event "priceRanges" (JArr []) in
  if Py.truthy price_ranges then
    let* pr := Py.getitem0 price_ranges in
    let* price_min := Py.get pr "min" (JStr "N/A") in
    let details := <[ "price_min" := price_min ]> details in
    let* price_max := Py.get pr "max" (JStr "N/A") in
    let details := <[ "price_max" := price_max ]> details in
    let* currency := Py.get pr "currency" (JStr "USD") in
    Ok (<[ "currency" := currency ]> details)
  else
    Ok (<[ "currency" := JStr "N/A" ]>
       (<[ "price_max" := JStr "N/A" ]>
       (<[ "price_min" := JStr "N/A" ]> details))).

Definition sale_details (event : json) (details : gmap string json)
    : result (gmap string json) :=
  let* sales := Py.get event "sales" (JObj ∅) in
  let* public_sale := Py.get sales "public" (JObj ∅) in
  let* onsale_start := Py.get public_sale "startDateTime" (JStr "N/A") in
  let details := <[ "onsale_start" := onsale_start ]> details in
  let* onsale_end := Py.get public_sale "endDateTime" (JStr "N/A") in
  let details := <[ "onsale_end" := onsale_end ]> details in
  let* sale_status := Py.get public_sale "startTBD" (JBool false) in
  Ok (<[ "sale_status" := sale_status ]> details).

(** The body of [extract_event_details], block by block in the order of
    the source: name and url, concert times, venue, classification, price,
    public sale. *)
Definition extract_event_details (event : json) : result (gmap string json) :=
  let* name := Py.get event "name" (JStr "N/A") in
  let* url := Py.get event "url" (JStr "N/A") in
  let details : gmap string json := <[ "url" := url ]> (<[ "name" := name ]> ∅) in
  let* (start_dt, end_dt) := parse_event_datetime event in
  let details := <[ "concert_start" := iso_or_na start_dt ]> details in
  let details := <[ "concert_end" := iso_or_na end_dt ]> details in
  let* details := venue_details event details in
  let* details := classification_details event details in
  let* details := price_details event details in
  sale_details event details.

(** The loop over the ranges, for an event whose interval is known. *)
Fixpoint within_some_range (event_start event_end : datetime)
    (time_ranges : list (datetime * datetime)) : result bool :=
  match time_ranges with
  | [] => Ok false
  | (range_start, range_end) :: rest =>
      let* starts_after := dt_le range_start event_start in
      let* inside :=
        if starts_after then dt_le event_end range_end else Ok false in
      if inside then Ok true
      else within_some_range event_start event_end rest
  end.

Definition event_falls_within_time_ranges (event : json)
    (time_ranges : list (datetime * datetime)) : result bool :=
  let* (event_start, event_end) := parse_event_datetime event in
  match event_start, event_end with
  | Some event_start, Some event_end =>
      within_some_range event_start event_end time_ranges
  | _, _ => Ok false
  end.

(** *** Concert search *)

(** The loop over the events of the answer: an event that falls within
    the ranges has its details extracted and appended. *)
Fixpoint filter_events (events : list json)
    (time_ranges : list (datetime * datetime)) : result (list json) :=
  match events with
  | [] => Ok []
  | event :: rest =>
      let* keep := event_falls_within_time_ranges event time_ranges in
      if keep then
        let* event_details := extract_event_details event in
        let* others := filter_events rest time_ranges in
        Ok (JObj event_details :: others)
      else filter_events rest time_ranges
  end.

(** What the [try] block does with the decoded answer. *)
Definition filtered_events_of (data : json)
    (time_ranges : list (datetime * datetime)) : result (list json) :=
  let* has_embedded := Py.contains "_embedded" data in
  let* has_events :=
    if has_embedded then
      let* embedded := Py.getitem data "_embedded" in
      Py.contains "events" embedded
    else Ok false in
  if has_events then
    let* embedded := Py.getitem data "_embedded" in
    let* events := Py.getitem embedded "events" in
    let* event_list := Py.iter events in
    filter_events event_list time_ranges
  else Ok [].

(** The [try] block once the exchange is over: status check, decoding,
    filtering. *)
Definition concerts_of_response (response : reply)
    (time_ranges : list (datetime * datetime)) : result (list json) :=
  let* (_, body) := raise_for_status response in
  let* data := response_json body in
  filtered_events_of data time_ranges.

(** The query of the concert search. *)
Definition concert_params (city state_code : string)
    (overall_start overall_end : datetime) (genre : option string)
    : gmap string json :=
  let params : gmap string json :=
    <[ "size" := JInt 30 ]>
    (<[ "sort" := JStr "relevance,desc" ]>
    (<[ "classificationName" := JStr "Music" ]>
    (<[ "endDateTime" := JStr (strftime overall_end) ]>
    (<[ "startDateTime" := JStr (strftime overall_start) ]>
    (<[ "stateCode" := JStr state_code ]>
    (<[ "city" := JStr city ]>
    (<[ "apikey" := JStr TICKETMASTER_API_KEY ]> ∅))))))) in
  match genre with
  | Some g => if negb (String.eqb g "") then <[ "genreName" := JStr g ]> params
              else params
  | None => params
  end.

Definition concert_request (params : gmap string json) : request :=
  {| rq_method := "GET";
     rq_url := TICKETMASTER_API_BASE +:+ "/events";
     rq_params := Some params;
     rq_headers := ∅;
     rq_json := None;
     rq_timeout := Some 10 |}.

Definition get_concerts_in_time_ranges (city state_code : string)
    (time_ranges : list (datetime * datetime)) (genre : option string)
    : io (list json) :=
  match time_ranges with
  | [] => io_ret []
  | _ =>
      let all_starts := map fst time_ranges in
      let all_ends := map snd time_ranges in
      let! overall_start := io_lift (py_min all_starts) in
      let! overall_end := io_lift (py_max all_ends) in
      let params := concert_params city state_code overall_start overall_end genre in
      io_try
        (let! response := send (concert_request params) in
         io_lift (concerts_of_response response time_ranges))
        (fun e => let! _ := print_error e in io_ret [])
  end.

Definition get_concerts (start_date end_date : datetime)
    (city state_code : string) : io (list json) :=
  let time_ranges := [(start_date, end_date)] in
  get_concerts_in_time_ranges city state_code time_ranges None.

(** The defaults of [get_concerts]'s [city] and [state_code]. *)
Definition get_concerts_city : string := "Toronto".
Definition get_concerts_state_code : string := "ON".

Definition e100_h100_get_ticketmaster_concerts (start_time end_time : string)
    : io (list json) :=
  let! start_dt := io_lift (datetime_fromisoformat (Str.replace_Z start_time)) in
  let! end_dt := io_lift (datetime_fromisoformat (Str.replace_Z end_time)) in
  get_concerts start_dt end_dt get_concerts_city get_concerts_state_code.

(** *** Updating a calendar event *)

(** [{"dateTime": t.rstrip('Z') if t.endswith('Z') else t, "timeZone": tz}] *)
Definition time_field (t timezone : string) : json :=
  let clean := if Str.endswith_Z t then Str.rstrip_Z t else t in
  JObj (<[ "timeZone" := JStr timezone ]> (<[ "dateTime" := JStr clean ]> ∅)).

(** [[{"email": email.strip()} for email in attendees.split(",")]] *)
Definition attendee_field (attendees : string) : json :=
  let email_list := map Str.strip (Str.split_comma attendees) in
  JArr (map (fun email => JObj (<[ "email" := JStr email ]> ∅)) email_list).

(** [if value is not None: current_event[key] = value] *)
Definition set_if_given (key : string) (value : option json)
    (current_event : json) : result json :=
  match value with
  | Some v => Py.setitem current_event key v
  | None => Ok current_event
  end.

(** The six overlays, in the order of the source. *)
Definition apply_updates (current_event : json)
    (title start_time end_time description location attendees : option string)
    (timezone : string) : result json :=
  let* current_event := set_if_given "summary" (JStr <$> title) current_event in
  let* current_event := set_if_given "description" (JStr <$> description) current_event in
  let* current_event := set_if_given "location" (JStr <$> location) current_event in
  let* current_event :=
    set_if_given "start" ((fun t => time_field t timezone) <$> start_time) current_event in
  let* current_event :=
    set_if_given "end" ((fun t => time_field t timezone) <$> end_time) current_event in
  set_if_given "attendees" (attendee_field <$> attendees) current_event.

Definition event_url (event_id : string) : string :=
  CALENDAR_API_BASE +:+ "/calendars/primary/events/" +:+ event_id.

Definition e100_h100_cohere_hackathon_update_calendar_event (event_id : string)
    (title start_time end_time description location attendees : option string)
    (timezone : string) : io (gmap string json) :=
  let token := _get_google_token in
  let! current_event := _fetch_calendar_data token (event_url event_id) None in
  let! current_event :=
    io_lift (apply_updates current_event title start_time end_time
                           description location attendees timezone) in
  let! response :=
    _modify_calendar_data token (event_url event_id) "PUT" (Some current_event) in
  io_lift (format_event_to_document response).

(** [timezone]'s default. *)
Definition update_timezone : string := "America/New_York".

(** *** The other calendar tools *)

(** [if value: params[key] = value] for an optional string argument. *)
Definition set_if_true (key : string) (value : option string)
    (params : gmap string json) : gmap string json :=
  match value with
  | Some v => if negb (String.eqb v "") then <[ key := JStr v ]> params else params
  | None => params
  end.

Definition events_url : string := CALENDAR_API_BASE +:+ "/calendars/primary/events".

(** The query of the listing. *)
Definition list_params (max_results : Z)
    (time_min time_max search_query : option string) : gmap string json :=
  let params : gmap string json :=
    <[ "orderBy" := JStr "startTime" ]>
    (<[ "singleEvents" := JBool true ]>
    (<[ "maxResults" := JInt max_results ]> ∅)) in
  let params := set_if_true "timeMin" time_min params in
  let params := set_if_true "timeMax" time_max params in
  set_if_true "q" search_query params.

Definition e100_h100_cohere_hackathon_list_calendar_events (max_results : Z)
    (time_min time_max search_query : option string) : io (gmap string json) :=
  let token := _get_google_token in
  let params := list_params max_results time_min time_max search_query in
  let! response := _fetch_calendar_data token events_url (Some params) in
  let! items := io_lift (Py.get response "items" (JArr [])) in
  let! item_list := io_lift (Py.iter items) in
  let! events := io_lift (mapM format_event_to_document item_list) in
  let result : gmap string json :=
    <[ "total_returned" := JInt (Z.of_nat (length events)) ]>
    (<[ "events" := JArr (JObj <$> events) ]> ∅) in
  let! next_page := io_lift (Py.get response "nextPageToken" JNull) in
  if Py.truthy next_page then
    let! token := io_lift (Py.getitem response "nextPageToken") in
    io_ret (<[ "has_more" := JBool true ]> (<[ "next_page_token" := token ]> result))
  else io_ret result.

(** The document [create] posts. *)
Definition event_data (title start_time end_time description location : string)
    (attendees : option string) (timezone : string) : gmap string json :=
  let data : gmap string json :=
    <[ "end" := time_field end_time timezone ]>
    (<[ "start" := time_field start_time timezone ]>
    (<[ "description" := JStr description ]>
    (<[ "summary" := JStr title ]> ∅))) in
  let data :=
    if negb (String.eqb location "") then <[ "location" := JStr location ]> data
    else data in
  match attendees with
  | Some a => if negb (String.eqb a "") then <[ "attendees" := attendee_field a ]> data
              else data
  | None => data
  end.

Definition e100_h100_cohere_hackathon_create_calendar_event
    (title start_time end_time description location : string)
    (attendees : option string) (timezone : string) : io (gmap string json) :=
  let token := _get_google_token in
  let data := event_data title start_time end_time description location
                         attendees timezone in
  let! response := _modify_calendar_data token events_url "POST" (Some (JObj data)) in
  io_lift (format_event_to_document response).

Definition e100_h100_cohere_hackathon_get_calendar_event (event_id : string)
    : io (gmap string json) :=
  let token := _get_google_token in
  let! response := _fetch_calendar_data token (event_url event_id) None in
  io_lift (format_event_to_document response).

Definition e100_h100_cohere_hackathon_delete_calendar_event (event_id : string)
    : io (gmap string json) :=
  let token := _get_google_token in
  let! _ := _modify_calendar_data token (event_url event_id) "DELETE" None in
  io_ret (<[ "message" := JStr ("Event " +:+ event_id +:+ " deleted successfully") ]>
         (<[ "success" := JBool true ]> ∅)).

(** *** Searching the ticket vendor by filters *)

(** [str(e)] for the [httpx.HTTPError] the search reports. *)
Variable str_error : exn -> string.

(** The query of the search by filters. *)
Definition search_params (keyword city state postal_code : option string)
    (country_code : string) (category genre start_date end_date : option string)
    (size : Z) : gmap string json :=
  let params : gmap string json :=
    <[ "countryCode" := JStr country_code ]>
    (<[ "size" := JInt (Z.min size 200) ]>
    (<[ "apikey" := JStr TICKETMASTER_API_KEY ]> ∅)) in
  let params := set_if_true "keyword" keyword params in
  let params := set_if_true "city" city params in
  let params := set_if_true "stateCode" state params in
  let params := set_if_true "postalCode" postal_code params in
  let params := set_if_true "classificationName" category params in
  let params := set_if_true "genreName" genre params in
  let params :=
    set_if_true "startDateTime"
      (match start_date with
       | Some d => if negb (String.eqb d "") then Some (d +:+ "T00:00:00Z") else None
       | None => None
       end) params in
  set_if_true "endDateTime"
    (match end_date with
     | Some d => if negb (String.eqb d "") then Some (d +:+ "T23:59:59Z") else None
     | None => None
     end) params.

(** [x.get("name") if x else None] *)
Definition name_if_true (x : json) : result json :=
  if Py.truthy x then Py.get x "name" JNull else Ok JNull.

(** [venue.get(outer, {}).get(inner)] *)
Definition get2 (v : json) (outer inner : string) : result json :=
  let* o := Py.get v outer (JObj ∅) in
  Py.get o inner JNull.

(** The summary of one event of the answer. *)
Definition event_summary (event : json) : result json :=
  let* classifications := Py.get event "classifications" (JArr []) in
  let* (genre_name, category_name) :=
    if Py.truthy classifications then
      let* first := Py.getitem0 classifications in
      let* genre := Py.get first "genre" (JObj ∅) in
      let* first := Py.getitem0 classifications in
      let* category := Py.get first "segment" (JObj ∅) in
      let* genre_name := name_if_true genre in
      let* category_name := name_if_true category in
      Ok (genre_name, category_name)
    else Ok (JNull, JNull) in
  let* dates := Py.get event "dates" (JObj ∅) in
  let* dates_info := Py.get dates "start" (JObj ∅) in
  let* event_date := Py.get dates_info "localDate" (JStr "N/A") in
  let* event_time := Py.get dates_info "localTime" (JStr "") in
  let* price_ranges := Py.get event "priceRanges" (JArr []) in
  let* price_info :=
    if Py.truthy price_ranges then
      let* pr := Py.getitem0 price_ranges in
      let* price_min := Py.get pr "min" JNull in
      let* price_max := Py.get pr "max" JNull in
      let* currency := Py.get pr "currency" (JStr "USD") in
      Ok (JObj (<[ "currency" := currency ]>
               (<[ "max" := price_max ]>
               (<[ "min" := price_min ]> ∅))))
    else Ok JNull in
  let* id := Py.get event "id" JNull in
  let* name := Py.get event "name" JNull in
  let* url := Py.get event "url" JNull in
  let* status := get2 event "status" "code" in
  let event_info : gmap string json :=
    <[ "price_info" := price_info ]>
    (<[ "status" := status ]>
    (<[ "genre" := genre_name ]>
    (<[ "category" := category_name ]>
    (<[ "time" := event_time ]>
    (<[ "date" := event_date ]>
    (<[ "url" := url ]>
    (<[ "name" := name ]>
    (<[ "id" := id ]> ∅)))))))) in
  let* found := has_venues event in
  if found then
    let* embedded := Py.getitem event "_embedded" in
    let* venues := Py.getitem embedded "venues" in
    let* venue := Py.getitem0 venues in
    let* venue_name := Py.get venue "name" JNull in
    let* city := get2 venue "city" "name" in
    let* state := get2 venue "state" "stateCode" in
    let* country := get2 venue "country" "countryCode" in
    let* address := get2 venue "address" "line1" in
    Ok (JObj (<[ "venue" := JObj (<[ "address" := address ]>
                                 (<[ "country" := country ]>
                                 (<[ "state" := state ]>
                                 (<[ "city" := city ]>
                                 (<[ "name" := venue_name ]> ∅))))) ]> event_info))
  else Ok (JObj event_info).

(** What the [try] block of the search does with the reply. *)
Definition summaries_of_response (response : reply) : result (gmap string json) :=
  let* (_, body) := raise_for_status response in
  let* data := response_json body in
  let* has_embedded := Py.contains "_embedded" data in
  let* has_events :=
    if has_embedded then
      let* embedded := Py.getitem data "_embedded" in
      Py.contains "events" embedded
    else Ok false in
  let* events :=
    if has_events then
      let* embedded := Py.getitem data "_embedded" in
      let* events := Py.getitem embedded "events" in
      let* event_list := Py.iter events in
      mapM event_summary event_list
    else Ok [] in
  let* page := Py.get data "page" (JObj ∅) in
  let* total_available := Py.get page "totalElements" (JInt 0) in
  Ok (<[ "total_available" := total_available ]>
     (<[ "total_returned" := JInt (Z.of_nat (length events)) ]>
     (<[ "events" := JArr events ]> ∅))).

Definition search_request (params : gmap string json) : request :=
  {| rq_method := "GET";
     rq_url := TICKETMASTER_API_BASE +:+ "/events";
     rq_params := Some params;
     rq_headers := ∅;
     rq_json := None;
     rq_timeout := Some 10 |}.

Definition e100_h100_search_ticketmaster_events
    (keyword city state postal_code : option string) (country_code : string)
    (category genre start_date end_date : option string) (size : Z)
    : io (gmap string json) :=
  let api_key := TICKETMASTER_API_KEY in
  if String.eqb api_key "" then
    io_ret (<[ "error" := JStr "Ticketmaster API key not set. Please add your API key to TICKETMASTER_API_KEY at the top of simple_calendar.py" ]> ∅)
  else
    let params := search_params keyword city state postal_code country_code
                                category genre start_date end_date size in
    io_try
      (let! response := send (search_request params) in
       io_lift (summaries_of_response response))
      (fun e =>
         match e with
         | HTTPError =>
             io_ret (<[ "error" := JStr ("Failed to search Ticketmaster events: "
                                          +:+ str_error e) ]> ∅)
         | _ => io_raise e
         end).

End Program.

(** ** Concrete surroundings for the examples

    The results below hold for every [fromisoformat], [strftime], [isoformat]
    and every remote side.  The examples run the program, and for that they
    use the following ones. *)

Module Sample.

Definition digit (c : ascii) : option Z :=
  let n := Z.of_nat (nat_of_ascii c) in
  if (48 <=? n) && (n <=? 57) then Some (n - 48) else None.

Fixpoint number (cs : list ascii) (acc : Z) : option Z :=
  match cs with
  | [] => Some acc
  | c :: r => match digit c with
              | Some d => number r (10 * acc + d)
              | None => None
              end
  end.

Definition is_leap (y : Z) : bool :=
  ((y mod 4 =? 0) && negb (y mod 100 =? 0)) || (y mod 400 =? 0).

Definition days_in_month (y m : Z) : Z :=
  if m =? 2 then (if is_leap y then 29 else 28)
  else if (m =? 4) || (m =? 6) || (m =? 9) || (m =? 11) then 30
  else 31.

Fixpoint days_before_month (y : Z) (m : nat) : Z :=
  match m with
  | O => 0
  | S k => days_before_month y k + days_in_month y (Z.of_nat (S k))
  end.

Definition days_before_year (y : Z) : Z :=
  (y - 1) * 365 + (y - 1) / 4 - (y - 1) / 100 + (y - 1) / 400.

Definition in_range (lo x hi : Z) : bool := (lo <=? x) && (x <=? hi).

(** Microseconds from 0001-01-01T00:00:00 to the given fields. *)
Definition wall_of (y mo d h mi sec : Z) : option Z :=
  if in_range 1 y 9999 && in_range 1 mo 12 && in_range 1 d (days_in_month y mo)
     && in_range 0 h 23 && in_range 0 mi 59 && in_range 0 sec 59
  then Some (((days_before_year y + days_before_month y (Z.to_nat (mo - 1)) + (d - 1))
              * 86400 + h * 3600 + mi * 60 + sec) * 1000000)
  else None.

(** [+HH:MM] or [-HH:MM], in microseconds. *)
Definition offset_of (cs : list ascii) : option (option Z) :=
  match cs with
  | [] => Some None
  | [sg; h1; h2; c; m1; m2] =>
      match number [h1; h2] 0, number [m1; m2] 0 with
      | Some h, Some m =>
          if Ascii.eqb c ":"%char && in_range 0 h 23 && in_range 0 m 59 then
            let o := (h * 3600 + m * 60) * 1000000 in
            if Ascii.eqb sg "+"%char then Some (Some o)
            else if Ascii.eqb sg "-"%char then Some (Some (- o))
            else None
          else None
      | _, _ => None
      end
  | _ => None
  end.

(** The strings [YYYY-MM-DDTHH:MM:SS] and [YYYY-MM-DDTHH:MM:SS+HH:MM], on
    which this agrees with [datetime.fromisoformat]; the examples use no
    other well-formed shape. *)
Definition fromisoformat (s : string) : option datetime :=
  match list_ascii_of_string s with
  | y1 :: y2 :: y3 :: y4 :: d1 :: m1 :: m2 :: d2 :: a1 :: a2 :: t
    :: h1 :: h2 :: c1 :: i1 :: i2 :: c2 :: s1 :: s2 :: rest =>
      if Ascii.eqb d1 "-"%char && Ascii.eqb d2 "-"%char && Ascii.eqb t "T"%char
         && Ascii.eqb c1 ":"%char && Ascii.eqb c2 ":"%char then
        match number [y1; y2; y3; y4] 0, number [m1; m2] 0, number [a1; a2] 0,
              number [h1; h2] 0, number [i1; i2] 0, number [s1; s2] 0,
              offset_of rest with
        | Some y, Some mo, Some d, Some h, Some mi, Some sec, Some off =>
            match wall_of y mo d h mi sec with
            | Some w => Some {| dt_wall := w; dt_utcoffset := off |}
            | None => None
            end
        | _, _, _, _, _, _, _ => None
        end
      else None
  | _ => None
  end.

(** A stand-in for both renderings of a [datetime]: its microsecond count
    and its offset, in decimal. *)
Definition show (d : datetime) : string :=
  pretty (dt_wall d) +:+ match dt_utcoffset d with
                         | Some o => "@" +:+ pretty o
                         | None => ""
                         end.

(** [str] of a float, a list or a dict is not needed by the examples. *)
Definition str_other (v : json) : string := "?".

(** A remote side that plays back a list of replies. *)
Definition scripted : Type := list reply.

Definition scripted_http (r : request) (w : scripted) : reply * scripted :=
  match w with
  | rep :: rest => (rep, rest)
  | [] => (NoReply, [])
  end.

(** A remote side that stores documents by URL: [GET] reads one, [PUT]
    replaces one with the body sent and answers with it. *)
Definition store : Type := gmap string json.

Definition store_http (r : request) (w : store) : reply * store :=
  if String.eqb (rq_method r) "GET" then
    match w !! rq_url r with
    | Some doc => (Reply 200 (Some doc), w)
    | None => (Reply 404 None, w)
    end
  else if String.eqb (rq_method r) "PUT" then
    match rq_json r with
    | Some doc => (Reply 200 (Some doc), <[ rq_url r := doc ]> w)
    | None => (Reply 400 None, w)
    end
  else (Reply 405 None, w).

(** JSON literals. *)
Definition obj (l : list (string * json)) : json := JObj (list_to_map l).

(** A ticket event with the given local date and time. *)
Definition event_at (name date time : string) : json :=
  obj [("name", JStr name);
       ("dates", obj [("start", obj [("localDate", JStr date);
                                     ("localTime", JStr time)])])].

(** The same with an explicit end. *)
Definition event_from_to (name date time end_date end_time : string) : json :=
  obj [("name", JStr name);
       ("dates", obj [("start", obj [("localDate", JStr date);
                                     ("localTime", JStr time)]);
                      ("end", obj [("localDate", JStr end_date);
                                   ("localTime", JStr end_time)])])].

Definition answer (events : list json) : json :=
  obj [("_embedded", obj [("events", JArr events)])].

Definition at_ (s : string) : datetime :=
  default {| dt_wall := 0; dt_utcoffset := None |} (fromisoformat s).

(** The two windows of the specification's example, in UTC. *)
Definition R1 : datetime * datetime :=
  (at_ "2024-01-01T10:00:00+00:00", at_ "2024-01-01T12:00:00+00:00").
Definition R2 : datetime * datetime :=
  (at_ "2024-01-05T18:00:00+00:00", at_ "2024-01-05T20:00:00+00:00").

(** A window written without offset: two naive values. *)
Definition naive_R1 : datetime * datetime :=
  (at_ "2024-01-01T10:00:00", at_ "2024-01-01T12:00:00").

(** Ticket events. *)
Definition inside_R1 : json :=
  event_from_to "Inside" "2024-01-01" "10:30:00" "2024-01-01" "11:30:00".
Definition crossing_R1 : json :=
  event_from_to "Crossing" "2024-01-01" "11:00:00" "2024-01-01" "13:00:00".
Definition ends_with_R1 : json :=
  event_from_to "Flush" "2024-01-01" "10:00:00" "2024-01-01" "12:00:00".
Definition ends_after_R1 : json :=
  event_from_to "Late" "2024-01-01" "10:00:00" "2024-01-01" "12:00:01".
Definition in_the_gap : json :=
  event_from_to "Gap" "2024-01-03" "10:00:00" "2024-01-03" "11:00:00".
Definition open_end : json := event_at "Open end" "2024-01-01" "10:30:00".
Definition last_evening : json := event_at "Last" "9999-12-31" "22:00:00".
Definition bad_date : json := event_at "Bad" "2024-01-01" "7pm".
Definition undated : json := obj [("name", JStr "Undated")].
Definition no_venues : json :=
  obj [("name", JStr "Nowhere"); ("_embedded", obj [("venues", JArr [])])].
Definition main_street : json :=
  obj [("name", JStr "Somewhere");
       ("_embedded",
        obj [("venues",
              JArr [obj [("name", JStr "The Hall");
                         ("address", obj [("line1", JStr "123 Main St")]);
                         ("city", obj [("name", JStr "Austin")])]])])].
Definition priced : json :=
  obj [("name", JStr "Priced");
       ("priceRanges", JArr [obj [("min", JInt 20); ("max", JInt 80)]])].

(** Calendar events. *)
Definition standup : json :=
  obj [("id", JStr "evt1");
       ("summary", JStr "Standup");
       ("description", JStr "Daily sync");
       ("htmlLink", JStr "https://calendar.example/evt1");
       ("start", obj [("dateTime", JStr "2024-01-15T10:00:00");
                      ("timeZone", JStr "America/New_York")]);
       ("end", obj [("dateTime", JStr "2024-01-15T10:15:00");
                    ("timeZone", JStr "America/New_York")]);
       ("attendees", JArr [obj [("email", JStr "ann@example.org")]])].
Definition untitled : json :=
  obj [("id", JStr "evt2"); ("start", obj [("date", JStr "2024-01-15")])].

(** A calendar that holds [standup]. *)
Definition calendar : store := {[ event_url "evt1" := standup ]}.

(** The program in these surroundings. *)
Definition parse := parse_event_datetime fromisoformat str_other.
Definition within := event_falls_within_time_ranges fromisoformat str_other.
Definition extract := extract_event_details fromisoformat show str_other.
Definition format := format_event_to_document str_other.
Definition search :=
  get_concerts_in_time_ranges fromisoformat show show str_other scripted scripted_http.
Definition concerts_tool :=
  e100_h100_get_ticketmaster_concerts fromisoformat show show str_other
    scripted scripted_http.
Definition update :=
  e100_h100_cohere_hackathon_update_calendar_event str_other (Some "t0k3n")
    store store_http.

End Sample.


(** ** Vocabulary of the statements *)

(** Both bounds of a range carry a time zone, so the range is a pair of
    points on the UTC time line. *)
Definition aware_range (R : datetime * datetime) : Prop :=
  aware R.1 = true ∧ aware R.2 = true.

(** The range [R] contains the interval from [s] to [e], bounds included. *)
Definition covers (s e : datetime) (R : datetime * datetime) : Prop :=
  instant R.1 <= instant s ∧ instant e <= instant R.2.

Definition covers_b (s e : datetime) (R : datetime * datetime) : bool :=
  (instant R.1 <=? instant s) && (instant e <=? instant R.2).

(** The values of a list can be ordered among themselves: all of them are
    aware, or all of them are naive. *)
Definition same_kind (l : list datetime) : Prop :=
  Forall (fun d => aware d = true) l ∨ Forall (fun d => aware d = false) l.

(** The [dates] object of an event names no explicit end: it has no [end]
    entry, or that entry lacks a true [localDate] or a true [localTime]. *)
Definition no_explicit_end (dates : gmap string json) : Prop :=
  match dates !! "end" with
  | None => True
  | Some (JObj end_info) =>
      Py.truthy (default JNull (end_info !! "localDate"))
      && Py.truthy (default JNull (end_info !! "localTime")) = false
  | Some _ => False
  end.

(** The overlay of one optional field on a document. *)
Definition overlay (key : string) (value : option json)
    (m : gmap string json) : gmap string json :=
  match value with
  | Some v => <[ key := v ]> m
  | None => m
  end.

(** The event is one the search keeps: the filter answers [True] on it. *)
Definition passes (fromisoformat : string -> option datetime)
    (str_other : json -> string) (time_ranges : list (datetime * datetime))
    (event : json) : bool :=
  match event_falls_within_time_ranges fromisoformat str_other event time_ranges with
  | Ok true => true
  | _ => false
  end.

(** * Properties *)

Lemma bind_Ok_inv {A B : Type} (m : result A) (k : A -> result B) (b : B) :
  bind m k = Ok b -> exists a, m = Ok a /\ k a = Ok b.
Proof. destruct m as [a|e]; simpl; [eauto | discriminate]. Qed.

(** Inverts one [let*] of a hypothesis that says the whole returned. *)
Ltac bind_inv H :=
  let a := fresh "v" in
  let E := fresh "E" in
  apply bind_Ok_inv in H; destruct H as (a & E & H).

Lemma covers_b_spec s e R : covers_b s e R = true <-> covers s e R.
Proof.
  unfold covers_b, covers.
  rewrite andb_true_iff, !Z.leb_le. reflexivity.
Qed.

Lemma existsb_covers s e time_ranges :
  existsb (covers_b s e) time_ranges = true <-> Exists (covers s e) time_ranges.
Proof.
  induction time_ranges as [|R rest IH]; simpl.
  - rewrite Exists_nil. split; [discriminate | tauto].
  - rewrite Exists_cons, orb_true_iff, covers_b_spec, IH. reflexivity.
Qed.

Lemma dt_le_aware a b :
  aware a = true -> aware b = true ->
  dt_le a b = Ok (instant a <=? instant b).
Proof.
  unfold aware, dt_le, dt_compare, instant.
  destruct (dt_utcoffset a) as [oa|], (dt_utcoffset b) as [ob|];
    try discriminate; intros _ _; simpl.
  unfold Z.leb. destruct (dt_wall a - oa ?= dt_wall b - ob); reflexivity.
Qed.

Lemma get_Ok_inv v k dflt x :
  Py.get v k dflt = Ok x -> exists m, v = JObj m /\ x = default dflt (m !! k).
Proof.
  destruct v; simpl; try discriminate.
  intros [= <-]. eauto.
Qed.

Lemma dt_le_Ok_aware_l a b v :
  aware b = true -> dt_le a b = Ok v -> aware a = true.
Proof.
  unfold aware, dt_le, dt_compare.
  destruct (dt_utcoffset a), (dt_utcoffset b); simpl; congruence.
Qed.

Lemma dt_le_Ok_aware_r a b v :
  aware a = true -> dt_le a b = Ok v -> aware b = true.
Proof.
  unfold aware, dt_le, dt_compare.
  destruct (dt_utcoffset a), (dt_utcoffset b); simpl; congruence.
Qed.

Lemma dt_compare_same_kind a b :
  aware a = aware b -> dt_compare a b = Ok (instant a ?= instant b).
Proof.
  unfold aware, dt_compare, instant.
  destruct (dt_utcoffset a), (dt_utcoffset b); simpl; try discriminate;
    intros _; rewrite ?Z.sub_0_r; reflexivity.
Qed.

Lemma dt_le_same_kind a b :
  aware a = aware b -> dt_le a b = Ok (instant a <=? instant b).
Proof.
  intros H. unfold dt_le. rewrite (dt_compare_same_kind _ _ H). simpl.
  unfold Z.leb. destruct (instant a ?= instant b); reflexivity.
Qed.

Lemma dt_lt_same_kind a b :
  aware a = aware b -> dt_lt a b = Ok (instant a <? instant b).
Proof.
  intros H. unfold dt_lt. rewrite (dt_compare_same_kind _ _ H). simpl.
  unfold Z.ltb. destruct (instant a ?= instant b); reflexivity.
Qed.

Lemma dt_gt_same_kind a b :
  aware a = aware b -> dt_gt a b = Ok (instant b <? instant a).
Proof.
  intros H. unfold dt_gt. rewrite (dt_compare_same_kind _ _ H). simpl.
  rewrite (Z.ltb_antisym (instant a) (instant b)).
  unfold Z.leb. destruct (instant a ?= instant b); reflexivity.
Qed.

(** [min] over values of one kind returns an element that is [<=] all. *)
Lemma min_from_spec l : forall cur,
  Forall (fun d => aware d = aware cur) l ->
  exists m, min_from cur l = Ok m
            /\ m ∈ cur :: l
            /\ aware m = aware cur
            /\ (forall x, x ∈ cur :: l -> instant m <= instant x).
Proof.
  induction l as [|y l IH]; intros cur Hk; simpl.
  - exists cur. repeat split; [left | ].
    intros x Hx. apply list_elem_of_singleton in Hx. subst. lia.
  - apply Forall_cons in Hk as [Hy Hk].
    rewrite (dt_lt_same_kind y cur Hy). simpl.
    destruct (Z.ltb_spec (instant y) (instant cur)) as [Hlt|Hge].
    + destruct (IH y) as (m & Hm & Hin & Haw & Hmin).
      { eapply Forall_impl; [exact Hk|]. simpl. intros; congruence. }
      exists m. repeat split; auto.
      * right. exact Hin.
      * congruence.
      * intros x Hx. apply elem_of_cons in Hx as [->|Hx].
        -- specialize (Hmin y (list_elem_of_here _ _)). lia.
        -- apply Hmin. exact Hx.
    + destruct (IH cur Hk) as (m & Hm & Hin & Haw & Hmin).
      exists m. repeat split; auto.
      * apply elem_of_cons in Hin as [->|Hin]; [left | right; right; exact Hin].
      * intros x Hx. apply elem_of_cons in Hx as [->|Hx].
        -- apply Hmin. left.
        -- apply elem_of_cons in Hx as [->|Hx].
           ++ specialize (Hmin cur (list_elem_of_here _ _)). lia.
           ++ apply Hmin. right. exact Hx.
Qed.

Lemma max_from_spec l : forall cur,
  Forall (fun d => aware d = aware cur) l ->
  exists m, max_from cur l = Ok m
            /\ m ∈ cur :: l
            /\ aware m = aware cur
            /\ (forall x, x ∈ cur :: l -> instant x <= instant m).
Proof.
  induction l as [|y l IH]; intros cur Hk; simpl.
  - exists cur. repeat split; [left | ].
    intros x Hx. apply list_elem_of_singleton in Hx. subst. lia.
  - apply Forall_cons in Hk as [Hy Hk].
    rewrite (dt_gt_same_kind y cur Hy). simpl.
    destruct (Z.ltb_spec (instant cur) (instant y)) as [Hlt|Hge].
    + destruct (IH y) as (m & Hm & Hin & Haw & Hmax).
      { eapply Forall_impl; [exact Hk|]. simpl. intros; congruence. }
      exists m. repeat split; auto.
      * right. exact Hin.
      * congruence.
      * intros x Hx. apply elem_of_cons in Hx as [->|Hx].
        -- specialize (Hmax y (list_elem_of_here _ _)). lia.
        -- apply Hmax. exact Hx.
    + destruct (IH cur Hk) as (m & Hm & Hin & Haw & Hmax).
      exists m. repeat split; auto.
      * apply elem_of_cons in Hin as [->|Hin]; [left | right; right; exact Hin].
      * intros x Hx. apply elem_of_cons in Hx as [->|Hx].
        -- apply Hmax. left.
        -- apply elem_of_cons in Hx as [->|Hx].
           ++ specialize (Hmax cur (list_elem_of_here _ _)). lia.
           ++ apply Hmax. right. exact Hx.
Qed.

Lemma same_kind_head x l :
  same_kind (x :: l) -> Forall (fun d => aware d = aware x) l.
Proof.
  intros [H|H]; apply Forall_cons in H as [Hx H];
    (eapply Forall_impl; [exact H|]); simpl; intros; congruence.
Qed.

Lemma py_min_spec l :
  l <> [] -> same_kind l ->
  exists m, py_min l = Ok m
            /\ m ∈ l
            /\ (forall x, x ∈ l -> dt_le m x = Ok true).
Proof.
  destruct l as [|x l]; [congruence|]. intros _ Hk. simpl.
  destruct (min_from_spec l x (same_kind_head _ _ Hk)) as (m & Hm & Hin & Haw & Hmin).
  exists m. repeat split; auto.
  intros y Hy. rewrite dt_le_same_kind.
  - f_equal. apply Z.leb_le. auto.
  - rewrite Haw. apply elem_of_cons in Hy as [->|Hy]; [reflexivity|].
    pose proof (same_kind_head _ _ Hk) as Hall.
    rewrite Forall_forall in Hall. symmetry. apply Hall. exact Hy.
Qed.

Lemma py_max_spec l :
  l <> [] -> same_kind l ->
  exists m, py_max l = Ok m
            /\ m ∈ l
            /\ (forall x, x ∈ l -> dt_le x m = Ok true).
Proof.
  destruct l as [|x l]; [congruence|]. intros _ Hk. simpl.
  destruct (max_from_spec l x (same_kind_head _ _ Hk)) as (m & Hm & Hin & Haw & Hmax).
  exists m. repeat split; auto.
  intros y Hy. rewrite dt_le_same_kind.
  - f_equal. apply Z.leb_le. auto.
  - rewrite Haw. apply elem_of_cons in Hy as [->|Hy]; [reflexivity|].
    pose proof (same_kind_head _ _ Hk) as Hall.
    rewrite Forall_forall in Hall. apply Hall. exact Hy.
Qed.

Section Properties.

Context (fromisoformat : string -> option datetime)
        (strftime isoformat : datetime -> string)
        (str_other : json -> string)
        (ACCESS_TOKEN : option string)
        (world : Type)
        (http : request -> world -> reply * world).

#[local] Abbreviation parse := (parse_event_datetime fromisoformat str_other).
#[local] Abbreviation within := (event_falls_within_time_ranges fromisoformat str_other).
#[local] Abbreviation extract := (extract_event_details fromisoformat isoformat str_other).
#[local] Abbreviation search :=
  (get_concerts_in_time_ranges fromisoformat strftime isoformat str_other world http).

Lemma within_some_range_aware s e time_ranges :
  aware s = true -> aware e = true -> Forall aware_range time_ranges ->
  within_some_range s e time_ranges = Ok (existsb (covers_b s e) time_ranges).
Proof.
  intros Hs He. induction 1 as [|[rs re] rest [Hrs Hre] _ IH]; simpl in *.
  - reflexivity.
  - rewrite (dt_le_aware rs s Hrs Hs). simpl.
    unfold covers_b at 1. simpl.
    destruct (instant rs <=? instant s); simpl.
    + rewrite (dt_le_aware e re He Hre). simpl.
      destruct (instant e <=? instant re); simpl; auto.
    + exact IH.
Qed.

(** Whatever [parse_event_datetime] returns is in UTC. *)
Lemma parse_event_datetime_utc event s e :
  parse event = Ok (Some s, Some e) ->
  dt_utcoffset s = Some 0 /\ dt_utcoffset e = Some 0.
Proof.
  unfold parse_event_datetime. intros H.
  do 4 bind_inv H.
  destruct (negb _); [discriminate|].
  do 6 bind_inv H.
  injection H as <- <-. split; [reflexivity|].
  match goal with Hen : (if ?c then _ else _) = Ok _ |- _ =>
    destruct c; [ bind_inv Hen; injection Hen as <-; reflexivity | ]
  end.
  match goal with Hen : add_hours _ _ = Ok _ |- _ =>
    unfold add_hours in Hen; destruct (_ && _) in Hen; [|discriminate];
    injection Hen as <-; reflexivity
  end.
Qed.

(** The interval is known on both ends or on neither. *)
Lemma parse_event_datetime_shape event p :
  parse event = Ok p ->
  p = (None, None) \/ exists s e, p = (Some s, Some e).
Proof.
  unfold parse_event_datetime. intros H.
  do 4 bind_inv H.
  destruct (negb _); [injection H as <-; auto|].
  do 6 bind_inv H.
  injection H as <-. eauto.
Qed.

(** C3: with no time range at all the concert search answers the empty
    list at once; the world and the log of requests are left as they
    were, so nothing has been sent. *)
Theorem get_concerts_in_time_ranges_no_ranges
    (city state_code : string) (genre : option string) (st : state world) :
  search city state_code [] genre st = (Ok [], st).
Proof. reflexivity. Qed.

(** C1, as the program has it: for an event whose interval is known and
    ranges whose bounds are aware, the filter answers, and it answers
    [true] exactly when one range contains the interval, both bounds
    included; for an event without a start date it answers [false]; and
    when reading the event's dates raises, the filter raises the same
    exception instead of answering. *)
Theorem event_falls_within_time_ranges_spec
    (event : json) (time_ranges : list (datetime * datetime)) :
  (forall s e,
      parse event = Ok (Some s, Some e) ->
      Forall aware_range time_ranges ->
      exists b, within event time_ranges = Ok b
                /\ (b = true <-> Exists (covers s e) time_ranges))
  /\ (parse event = Ok (None, None) -> within event time_ranges = Ok false)
  /\ (forall x, parse event = Raise x -> within event time_ranges = Raise x).
Proof.
  unfold event_falls_within_time_ranges. repeat split.
  - intros s e Hp Haw. rewrite Hp. simpl.
    destruct (parse_event_datetime_utc _ _ _ Hp) as [Hs He].
    exists (existsb (covers_b s e) time_ranges). split.
    + apply within_some_range_aware; auto; unfold aware;
        [rewrite Hs | rewrite He]; reflexivity.
    + apply existsb_covers.
  - intros Hp. rewrite Hp. reflexivity.
  - intros x Hp. rewrite Hp. reflexivity.
Qed.

(** C5: an event with a start date that parses and no explicit end gets
    the start plus exactly three hours as its end, both in UTC.  The sum
    is a [datetime] only up to the end of year 9999; past it the addition
    raises [OverflowError]. *)
Theorem parse_event_datetime_default_end
    (m dates dates_info : gmap string json) (date_str : json) (parsed : datetime) :
  m !! "dates" = Some (JObj dates) ->
  dates !! "start" = Some (JObj dates_info) ->
  dates_info !! "localDate" = Some date_str ->
  Py.truthy date_str = true ->
  fromisoformat
    (py_str str_other date_str +:+ "T"
     +:+ py_str str_other (default (JStr "00:00:00") (dates_info !! "localTime")))
    = Some parsed ->
  no_explicit_end dates ->
  let start := replace_tzinfo_utc parsed in
  let w := dt_wall start + 3 * (3600 * 1000000) in
  parse (JObj m) =
    if (0 <=? w) && (w <=? dt_max_wall)
    then Ok (Some start, Some {| dt_wall := w; dt_utcoffset := Some 0 |})
    else Raise OverflowError.
Proof.
  intros Hd Hs Hl Ht Hp Hend start w.
  unfold parse_event_datetime, Py.get at 1 2 3 4 5.
  rewrite Hd. simpl. rewrite Hs. simpl. rewrite Hl. simpl.
  rewrite Ht. simpl.
  unfold datetime_fromisoformat. rewrite Hp. simpl.
  unfold no_explicit_end in Hend.
  destruct (dates !! "end") as [[| | | | | |end_info]|]; try contradiction; simpl.
  - rewrite Hend. unfold add_hours. fold start. simpl.
    change (dt_wall parsed + 3 * us_per_hour) with w.
    destruct ((0 <=? w) && (w <=? dt_max_wall)); reflexivity.
  - rewrite lookup_empty. simpl. unfold add_hours. simpl.
    change (dt_wall parsed + 3 * us_per_hour) with w.
    destruct ((0 <=? w) && (w <=? dt_max_wall)); reflexivity.
Qed.

(** The public-sale block writes its own three keys only. *)
Lemma sale_details_frame event details details' k :
  sale_details event details = Ok details' ->
  k <> "onsale_start" -> k <> "onsale_end" -> k <> "sale_status" ->
  details' !! k = details !! k.
Proof.
  unfold sale_details. intros H H1 H2 H3.
  do 5 bind_inv H. injection H as <-.
  rewrite !lookup_insert_ne by congruence. reflexivity.
Qed.

(** C8: whenever the details of an event are extracted, an event with no
    price range (no [priceRanges] entry, or an empty one) has ["N/A"] for
    [price_min], [price_max] and [currency]; an event whose first price
    range has no [currency] entry has the currency ["USD"]. *)
Theorem extract_event_details_price
    (m details : gmap string json) :
  extract (JObj m) = Ok details ->
  (Py.truthy (default (JArr []) (m !! "priceRanges")) = false ->
     details !! "price_min" = Some (JStr "N/A")
     /\ details !! "price_max" = Some (JStr "N/A")
     /\ details !! "currency" = Some (JStr "N/A"))
  /\ (forall pr rest,
        m !! "priceRanges" = Some (JArr (JObj pr :: rest)) ->
        pr !! "currency" = None ->
        details !! "currency" = Some (JStr "USD")).
Proof.
  unfold extract_event_details. intros H.
  do 3 bind_inv H. destruct v1 as [start_dt end_dt].
  do 3 bind_inv H.
  match goal with Hp : price_details _ _ = Ok ?d |- _ =>
    rename Hp into Hprice; rename d into priced
  end.
  assert (Hk : forall k, k = "price_min" \/ k = "price_max" \/ k = "currency" ->
                         details !! k = priced !! k).
  { intros k Hk. apply (sale_details_frame _ _ _ _ H);
      destruct Hk as [->|[->| ->]]; discriminate. }
  unfold price_details in Hprice. simpl in Hprice. split.
  - intros Hfalse. rewrite Hfalse in Hprice. injection Hprice as <-.
    rewrite !Hk by auto.
    rewrite lookup_insert_ne, lookup_insert_ne, lookup_insert_eq by discriminate.
    rewrite lookup_insert_ne, lookup_insert_eq by discriminate.
    rewrite lookup_insert_eq. auto.
  - intros pr rest Hpr Hcur. rewrite Hpr in Hprice. simpl in Hprice.
    rewrite Hcur in Hprice. simpl in Hprice. injection Hprice as <-.
    rewrite Hk by auto. apply lookup_insert_eq.
Qed.

(** C9: the venue block looks at the presence of the [venues] key only and
    then takes the first venue.  With an empty [venues] list the
    extraction therefore fails: with [IndexError], unless reading the
    event's dates (which comes first) has already raised.  The ["N/A"]
    branch is the one of an absent key. *)
Theorem extract_event_details_empty_venues
    (m embedded : gmap string json) :
  m !! "_embedded" = Some (JObj embedded) ->
  (embedded !! "venues" = Some (JArr []) ->
     extract (JObj m) =
       match parse (JObj m) with
       | Ok _ => Raise IndexError
       | Raise x => Raise x
       end)
  /\ (has_venues (JObj m) = Ok false <-> embedded !! "venues" = None).
Proof.
  intros Hemb. split.
  - intros Hven. unfold extract_event_details. simpl.
    destruct (parse (JObj m)) as [[start_dt end_dt]|x]; simpl; [|reflexivity].
    unfold venue_details, has_venues. simpl.
    rewrite Hemb. simpl. rewrite Hven. simpl. reflexivity.
  - unfold has_venues. simpl. rewrite Hemb. simpl.
    destruct (embedded !! "venues"); simpl; split;
      intros; try discriminate; reflexivity.
Qed.

(** The ["N/A"] branch of the venue block. *)
Lemma venue_details_absent event details :
  has_venues event = Ok false ->
  venue_details event details =
    Ok (<[ "venue_address" := JStr "N/A" ]>
       (<[ "venue_name" := JStr "N/A" ]> details)).
Proof. intros H. unfold venue_details. rewrite H. reflexivity. Qed.

(** C7, as the program has it: a formatted document carries the event's
    [id] ([None] when there is none), its [summary] as [title] and its
    [htmlLink] as [url]; an event without [summary] is titled
    ["(No title)"], one without [htmlLink] has the empty [url]. *)
Theorem format_event_to_document_fields
    (event : json) (doc : gmap string json) :
  format_event_to_document str_other event = Ok doc ->
  exists m,
    event = JObj m
    /\ doc !! "id" = Some (default JNull (m !! "id"))
    /\ doc !! "title" = Some (default (JStr "(No title)") (m !! "summary"))
    /\ doc !! "url" = Some (default (JStr "") (m !! "htmlLink")).
Proof.
  unfold format_event_to_document. intros H.
  bind_inv H. destruct (get_Ok_inv _ _ _ _ E) as (m & -> & ->).
  exists m. split; [reflexivity|].
  repeat bind_inv H.
  injection H as <-.
  repeat match goal with
         | Hg : Py.get (JObj m) _ _ = Ok _ |- _ => injection Hg as <-
         end.
  split; [|split].
  - apply lookup_insert_eq.
  - rewrite lookup_insert_ne, lookup_insert_ne by discriminate.
    apply lookup_insert_eq.
  - rewrite lookup_insert_ne, lookup_insert_ne, lookup_insert_ne by discriminate.
    apply lookup_insert_eq.
Qed.

#[local] Abbreviation respond :=
  (concerts_of_response fromisoformat isoformat str_other).
#[local] Abbreviation query := (concert_params strftime).

(** One run of the search once the covering window is known: the request
    is sent, and whatever goes wrong afterwards ends in the empty list. *)
Lemma get_concerts_in_time_ranges_run
    city state_code time_ranges genre w log overall_start overall_end :
  time_ranges <> [] ->
  py_min (map fst time_ranges) = Ok overall_start ->
  py_max (map snd time_ranges) = Ok overall_end ->
  let q := concert_request (query city state_code overall_start overall_end genre) in
  search city state_code time_ranges genre (w, log) =
    match respond (http q w).1 time_ranges with
    | Ok found => (Ok found, ((http q w).2, (log ++ [Sent q])%list))
    | Raise x => (Ok [], ((http q w).2, (log ++ [Sent q; Printed x])%list))
    end.
Proof.
  intros Hne Hmin Hmax q.
  destruct time_ranges as [|R rest]; [congruence|].
  unfold get_concerts_in_time_ranges, io_bind, io_lift, io_try, send.
  rewrite Hmin, Hmax. fold q. simpl.
  destruct (http q w) as [response w']. simpl.
  destruct (respond response (R :: rest)) as [found|x]; simpl.
  - reflexivity.
  - unfold print_error, io_ret. simpl. rewrite <- app_assoc. reflexivity.
Qed.

(** What the loop over the events returns, when it returns: the details
    of the events that pass the filter, in the order of the answer. *)
Lemma filter_events_Ok events time_ranges found :
  filter_events fromisoformat isoformat str_other events time_ranges = Ok found ->
  mapM (fun event => let* d := extract event in Ok (JObj d))
       (List.filter (passes fromisoformat str_other time_ranges) events) = Ok found.
Proof.
  revert found. induction events as [|event rest IH]; intros found H; simpl in *.
  - exact H.
  - bind_inv H. unfold passes at 1. rewrite E.
    destruct v.
    + do 2 bind_inv H. injection H as <-. simpl.
      rewrite E0. simpl. rewrite (IH _ E1). reflexivity.
    + apply IH. exact H.
Qed.

(** The loop gives up at the first event whose dates cannot be read. *)
Lemma filter_events_raises events time_ranges bad x :
  bad ∈ events -> parse bad = Raise x ->
  exists x', filter_events fromisoformat isoformat str_other events time_ranges = Raise x'.
Proof.
  intros Hin Hbad. induction events as [|event rest IH]; simpl.
  - inversion Hin.
  - apply elem_of_cons in Hin as [<-|Hin].
    + unfold event_falls_within_time_ranges. rewrite Hbad. simpl. eauto.
    + destruct (IH Hin) as [x' Hx'].
      destruct (within event time_ranges) as [[|]|y]; simpl; eauto.
      destruct (extract event); simpl; eauto.
      rewrite Hx'. simpl. eauto.
Qed.

(** An event that passes lies within one of the ranges. *)
Lemma within_some_range_true s e time_ranges :
  aware s = true -> aware e = true ->
  within_some_range s e time_ranges = Ok true ->
  Exists (covers s e) time_ranges.
Proof.
  intros Hs He. induction time_ranges as [|[rs re] rest IH]; simpl.
  - discriminate.
  - intros H. bind_inv H. bind_inv H.
    destruct v0; [left | right; apply IH; exact H].
    destruct v; [|discriminate].
    pose proof (dt_le_Ok_aware_l _ _ _ Hs E) as Hrs.
    pose proof (dt_le_Ok_aware_r _ _ _ He E0) as Hre.
    rewrite (dt_le_aware _ _ Hrs Hs) in E.
    rewrite (dt_le_aware _ _ He Hre) in E0.
    injection E as E. injection E0 as E0.
    split; apply Z.leb_le; assumption.
Qed.

Lemma passes_covers event s e time_ranges :
  parse event = Ok (Some s, Some e) ->
  passes fromisoformat str_other time_ranges event = true ->
  Exists (covers s e) time_ranges.
Proof.
  unfold passes, event_falls_within_time_ranges. intros Hp. rewrite Hp. simpl.
  destruct (parse_event_datetime_utc _ _ _ Hp) as [Hs He].
  destruct (within_some_range s e time_ranges) as [[|]|] eqn:Hw; try discriminate.
  intros _. apply within_some_range_true in Hw; auto;
    unfold aware; [rewrite Hs | rewrite He]; reflexivity.
Qed.

Lemma raise_for_status_2xx status body :
  200 <= status < 300 -> raise_for_status (Reply status body) = Ok (status, body).
Proof.
  intros [H1 H2]. simpl.
  destruct (Z.leb_spec 200 status); [|lia].
  destruct (Z.ltb_spec status 300); [reflexivity|lia].
Qed.

(** The [try] block on a well-formed answer is the loop over its events. *)
Lemma concerts_of_response_events status m embedded events time_ranges :
  200 <= status < 300 ->
  m !! "_embedded" = Some (JObj embedded) ->
  embedded !! "events" = Some (JArr events) ->
  respond (Reply status (Some (JObj m))) time_ranges
    = filter_events fromisoformat isoformat str_other events time_ranges.
Proof.
  intros Hst Hm He. unfold concerts_of_response.
  rewrite (raise_for_status_2xx _ _ Hst). simpl.
  unfold filtered_events_of. simpl. rewrite Hm. simpl. rewrite He. simpl.
  reflexivity.
Qed.

(** Reading the query of the concert search. *)
Lemma concert_params_lookup city state_code overall_start overall_end genre k :
  k <> "genreName" ->
  query city state_code overall_start overall_end genre !! k
  = (<[ "size" := JInt 30 ]>
    (<[ "sort" := JStr "relevance,desc" ]>
    (<[ "classificationName" := JStr "Music" ]>
    (<[ "endDateTime" := JStr (strftime overall_end) ]>
    (<[ "startDateTime" := JStr (strftime overall_start) ]>
    (<[ "stateCode" := JStr state_code ]>
    (<[ "city" := JStr city ]>
    (<[ "apikey" := JStr TICKETMASTER_API_KEY ]>
       (∅ : gmap string json))))))))) !! k.
Proof.
  intros Hk. unfold concert_params.
  destruct genre as [g|]; [destruct (negb _)|]; try reflexivity.
  apply lookup_insert_ne. congruence.
Qed.

Lemma mapM_elem {A B : Type} (f : A -> result B) l l' x :
  mapM f l = Ok l' -> x ∈ l -> exists y, f x = Ok y /\ y ∈ l'.
Proof.
  revert l'. induction l as [|a l IH]; intros l' H Hx.
  - inversion Hx.
  - simpl in H. do 2 bind_inv H. injection H as <-.
    apply elem_of_cons in Hx as [->|Hx].
    + exists v. split; [assumption | left].
    + destruct (IH _ E0 Hx) as (y & Hy & Hin). exists y. split; [assumption | right; assumption].
Qed.

(** For ranges with aware bounds an event with a known interval passes
    exactly when one range contains the interval. *)
Lemma passes_iff_covers event s e time_ranges :
  parse event = Ok (Some s, Some e) ->
  Forall aware_range time_ranges ->
  passes fromisoformat str_other time_ranges event = true
  <-> Exists (covers s e) time_ranges.
Proof.
  intros Hp Haw. unfold passes, event_falls_within_time_ranges. rewrite Hp. simpl.
  destruct (parse_event_datetime_utc _ _ _ Hp) as [Hs He].
  rewrite within_some_range_aware; auto;
    try (unfold aware; rewrite ?Hs, ?He; reflexivity).
  rewrite <- existsb_covers.
  destruct (existsb (covers_b s e) time_ranges); split; congruence.
Qed.

(** C4, as the program has it: for ranges whose starts, and whose ends,
    can be ordered among themselves (all aware or all naive), the search
    sends exactly one request, a [GET] of the vendor's [/events] whose
    [startDateTime] is the least of the range starts and whose
    [endDateTime] is the greatest of the range ends.  The events of the
    answer are then filtered against the ranges as given: the result is
    made of the details of the events that pass the filter, in order; an
    event that no single range contains does not pass, wherever it lies in
    the covering window, and for ranges with aware bounds an event that a
    range contains passes and has its details in the result. *)
Theorem get_concerts_in_time_ranges_covering_window
    (city state_code : string) (time_ranges : list (datetime * datetime))
    (genre : option string) (w : world) (log : list io_event) :
  time_ranges <> [] ->
  same_kind (map fst time_ranges) ->
  same_kind (map snd time_ranges) ->
  exists (overall_start overall_end : datetime) (q : request)
         (params : gmap string json),
    (overall_start ∈ map fst time_ranges
     /\ forall s, s ∈ map fst time_ranges -> dt_le overall_start s = Ok true)
    /\ (overall_end ∈ map snd time_ranges
        /\ forall e, e ∈ map snd time_ranges -> dt_le e overall_end = Ok true)
    /\ (rq_method q = "GET"
        /\ rq_url q = "https://app.ticketmaster.com/discovery/v2/events"
        /\ rq_params q = Some params
        /\ rq_json q = None
        /\ rq_timeout q = Some 10)
    /\ (params !! "startDateTime" = Some (JStr (strftime overall_start))
        /\ params !! "endDateTime" = Some (JStr (strftime overall_end))
        /\ params !! "city" = Some (JStr city)
        /\ params !! "stateCode" = Some (JStr state_code)
        /\ params !! "classificationName" = Some (JStr "Music")
        /\ params !! "size" = Some (JInt 30))
    /\ search city state_code time_ranges genre (w, log) =
         match respond (http q w).1 time_ranges with
         | Ok found => (Ok found, ((http q w).2, (log ++ [Sent q])%list))
         | Raise x => (Ok [], ((http q w).2, (log ++ [Sent q; Printed x])%list))
         end
    /\ (forall status m embedded events found,
           (http q w).1 = Reply status (Some (JObj m)) ->
           200 <= status < 300 ->
           m !! "_embedded" = Some (JObj embedded) ->
           embedded !! "events" = Some (JArr events) ->
           respond (http q w).1 time_ranges = Ok found ->
           mapM (fun event => let* d := extract event in Ok (JObj d))
                (List.filter (passes fromisoformat str_other time_ranges) events)
             = Ok found
           /\ forall event s e,
                event ∈ events ->
                parse event = Ok (Some s, Some e) ->
                Forall aware_range time_ranges ->
                Exists (covers s e) time_ranges ->
                exists details, extract event = Ok details /\ JObj details ∈ found)
    /\ (forall event s e,
           parse event = Ok (Some s, Some e) ->
           ~ Exists (covers s e) time_ranges ->
           passes fromisoformat str_other time_ranges event = false)
    /\ (forall event s e,
           parse event = Ok (Some s, Some e) ->
           Forall aware_range time_ranges ->
           Exists (covers s e) time_ranges ->
           passes fromisoformat str_other time_ranges event = true).
Proof.
  intros Hne Hstarts Hends.
  assert (Hne1 : map fst time_ranges <> []) by (destruct time_ranges; simpl; congruence).
  assert (Hne2 : map snd time_ranges <> []) by (destruct time_ranges; simpl; congruence).
  destruct (py_min_spec _ Hne1 Hstarts) as (overall_start & Hmin & Hin1 & Hle1).
  destruct (py_max_spec _ Hne2 Hends) as (overall_end & Hmax & Hin2 & Hle2).
  exists overall_start, overall_end,
    (concert_request (query city state_code overall_start overall_end genre)),
    (query city state_code overall_start overall_end genre).
  split; [auto|]. split; [auto|].
  split; [repeat split|].
  split.
  { repeat split; rewrite concert_params_lookup by discriminate;
      repeat first [ rewrite lookup_insert_ne by discriminate
                   | rewrite lookup_insert_eq ]; reflexivity. }
  split; [apply get_concerts_in_time_ranges_run; assumption|].
  split; [|split].
  - intros status m embedded events found Hrep Hst Hm He Hfound.
    rewrite Hrep in Hfound.
    rewrite (concerts_of_response_events _ _ _ _ _ Hst Hm He) in Hfound.
    apply filter_events_Ok in Hfound. split; [exact Hfound|].
    intros event s e Hin Hp Haw Hcov.
    assert (Hkept : event ∈ List.filter (passes fromisoformat str_other time_ranges) events).
    { apply list_elem_of_In, filter_In. split; [apply list_elem_of_In; exact Hin|].
      apply (passes_iff_covers _ _ _ _ Hp Haw). exact Hcov. }
    destruct (mapM_elem _ _ _ _ Hfound Hkept) as (y & Hy & Hyin).
    bind_inv Hy. injection Hy as <-. eauto.
  - intros event s e Hp Hnot.
    destruct (passes fromisoformat str_other time_ranges event) eqn:Hpass; [|reflexivity].
    exfalso. apply Hnot. eapply passes_covers; eauto.
  - intros event s e Hp Haw Hcov. apply (passes_iff_covers _ _ _ _ Hp Haw). exact Hcov.
Qed.

(** C2, as the program has it: when reading the dates of one event of the
    answer raises, the handler around the whole request takes over; the
    search answers the empty list, whatever the other events are, prints
    one line and raises nothing. *)
Theorem get_concerts_in_time_ranges_bad_date
    (city state_code : string) (time_ranges : list (datetime * datetime))
    (genre : option string) (w w' : world) (log : list io_event)
    (overall_start overall_end : datetime) (status : Z)
    (m embedded : gmap string json) (events : list json) (bad : json) :
  time_ranges <> [] ->
  py_min (map fst time_ranges) = Ok overall_start ->
  py_max (map snd time_ranges) = Ok overall_end ->
  let q := concert_request (query city state_code overall_start overall_end genre) in
  http q w = (Reply status (Some (JObj m)), w') ->
  200 <= status < 300 ->
  m !! "_embedded" = Some (JObj embedded) ->
  embedded !! "events" = Some (JArr events) ->
  bad ∈ events ->
  parse bad = Raise ValueError ->
  exists x,
    search city state_code time_ranges genre (w, log)
      = (Ok [], (w', (log ++ [Sent q; Printed x])%list)).
Proof.
  intros Hne Hmin Hmax q Hq Hst Hm He Hin Hbad.
  rewrite (get_concerts_in_time_ranges_run _ _ _ _ w log _ _ Hne Hmin Hmax).
  fold q. rewrite Hq. simpl.
  rewrite (concerts_of_response_events _ _ _ _ _ Hst Hm He).
  destruct (filter_events_raises events time_ranges bad _ Hin Hbad) as [x Hx].
  rewrite Hx. eauto.
Qed.

#[local] Abbreviation concerts_tool :=
  (e100_h100_get_ticketmaster_concerts fromisoformat strftime isoformat str_other
     world http).

(** C10: whatever the two arguments are, the tool searches Toronto, ON,
    with the one range its arguments denote: it is the search for
    ["Toronto"], ["ON"] and that single range, and the one request it
    sends carries this city, this state code and the two bounds.  When an
    argument is no date the tool raises before anything is sent. *)
Theorem e100_h100_get_ticketmaster_concerts_toronto
    (start_time end_time : string) (w : world) (log : list io_event) :
  match fromisoformat (Str.replace_Z start_time),
        fromisoformat (Str.replace_Z end_time) with
  | Some start_dt, Some end_dt =>
      let params := query "Toronto" "ON" start_dt end_dt None in
      let q := concert_request params in
      concerts_tool start_time end_time (w, log)
        = search "Toronto" "ON" [(start_dt, end_dt)] None (w, log)
      /\ (exists found tail,
            concerts_tool start_time end_time (w, log)
              = (Ok found, ((http q w).2, (log ++ Sent q :: tail)%list))
            /\ Forall (fun ev => exists x, ev = Printed x) tail)
      /\ params !! "city" = Some (JStr "Toronto")
      /\ params !! "stateCode" = Some (JStr "ON")
      /\ params !! "startDateTime" = Some (JStr (strftime start_dt))
      /\ params !! "endDateTime" = Some (JStr (strftime end_dt))
  | _, _ => concerts_tool start_time end_time (w, log) = (Raise ValueError, (w, log))
  end.
Proof.
  unfold e100_h100_get_ticketmaster_concerts, io_bind, io_lift,
    datetime_fromisoformat.
  destruct (fromisoformat (Str.replace_Z start_time)) as [start_dt|];
    cbv beta iota; [|reflexivity].
  destruct (fromisoformat (Str.replace_Z end_time)) as [end_dt|];
    cbv beta iota; [|reflexivity].
  set (q := concert_request (query "Toronto" "ON" start_dt end_dt None)).
  split; [reflexivity|]. split; [|repeat split].
  unfold get_concerts, get_concerts_city, get_concerts_state_code.
  rewrite (get_concerts_in_time_ranges_run _ _ _ _ w log start_dt end_dt);
    [|discriminate|reflexivity|reflexivity].
  fold q.
  destruct (respond (http q w).1 [(start_dt, end_dt)]) as [found|x].
  - exists found, []. split; [reflexivity | constructor].
  - exists [], [Printed x]. split; [reflexivity|].
    constructor; [eauto | constructor].
Qed.

Lemma send_run r w log :
  send world http r (w, log)
  = (Ok (http r w).1, ((http r w).2, (log ++ [Sent r])%list)).
Proof. unfold send. simpl. destruct (http r w). reflexivity. Qed.

(** A successful [GET]: the document comes back, one request is logged. *)
Lemma _fetch_calendar_data_run token url w w1 log status v :
  let fetch := {| rq_method := "GET"; rq_url := url; rq_params := None;
                  rq_headers := {[ "Authorization" := bearer token ]};
                  rq_json := None; rq_timeout := None |} in
  http fetch w = (Reply status (Some v), w1) ->
  200 <= status < 300 ->
  _fetch_calendar_data world http token url None (w, log)
  = (Ok v, (w1, (log ++ [Sent fetch])%list)).
Proof.
  intros fetch Hfetch Hst. unfold _fetch_calendar_data, io_bind.
  rewrite send_run. fold fetch. rewrite Hfetch. cbn [fst snd].
  unfold io_lift. rewrite (raise_for_status_2xx _ _ Hst). reflexivity.
Qed.

(** Whatever a modifying call returns, it has sent exactly its request. *)
Lemma _modify_calendar_data_state token url method payload w log :
  let headers : gmap string string :=
    if match payload with Some v => Py.truthy v | None => false end
    then <[ "Content-Type" := "application/json" ]>
           ({[ "Authorization" := bearer token ]} : gmap string string)
    else {[ "Authorization" := bearer token ]} in
  let r := {| rq_method := method; rq_url := url; rq_params := None;
              rq_headers := headers; rq_json := payload; rq_timeout := None |} in
  (_modify_calendar_data world http token url method payload (w, log)).2
  = ((http r w).2, (log ++ [Sent r])%list).
Proof.
  intros headers r. unfold _modify_calendar_data, io_bind.
  rewrite send_run. fold headers. fold r. unfold io_lift, io_ret.
  destruct (raise_for_status (http r w).1) as [[code body]|x]; [|reflexivity].
  destruct (code =? 204); [reflexivity|].
  destruct (response_json body); reflexivity.
Qed.

#[local] Abbreviation update :=
  (e100_h100_cohere_hackathon_update_calendar_event str_other ACCESS_TOKEN world http).

(** On a JSON object the six overlays never fail. *)
Lemma apply_updates_object current title start_time end_time description
    location attendees timezone :
  apply_updates (JObj current) title start_time end_time description location
                attendees timezone
  = Ok (JObj (overlay "attendees" (attendee_field <$> attendees)
             (overlay "end" ((fun t => time_field t timezone) <$> end_time)
             (overlay "start" ((fun t => time_field t timezone) <$> start_time)
             (overlay "location" (JStr <$> location)
             (overlay "description" (JStr <$> description)
             (overlay "summary" (JStr <$> title) current))))))).
Proof.
  destruct title, start_time, end_time, description, location, attendees;
    reflexivity.
Qed.

Lemma overlay_None key (m : gmap string json) : overlay key None m = m.
Proof. reflexivity. Qed.

Lemma overlay_other key value m k :
  k <> key -> overlay key value m !! k = m !! k.
Proof.
  intros Hk. destruct value; simpl; [|reflexivity].
  apply lookup_insert_ne. congruence.
Qed.

(** C6: the update fetches the event, overlays the fields that were
    given and sends the whole document back in one [PUT].  In the
    document written, every field whose parameter is [None] is the fetched
    one, and so is every field the tool has no parameter for; with only
    [location] given the document written is the fetched one with its
    [location] replaced. *)
Theorem update_calendar_event_writes_back
    (event_id : string)
    (title start_time end_time description location attendees : option string)
    (timezone : string) (w w1 : world) (log : list io_event) (status : Z)
    (current : gmap string json) :
  let fetch := {| rq_method := "GET"; rq_url := event_url event_id;
                  rq_params := None;
                  rq_headers := {[ "Authorization" := bearer ACCESS_TOKEN ]};
                  rq_json := None; rq_timeout := None |} in
  http fetch w = (Reply status (Some (JObj current)), w1) ->
  200 <= status < 300 ->
  exists (written : gmap string json) (put : request),
    (update event_id title start_time end_time description location attendees
            timezone (w, log)).2
      = ((http put w1).2, (log ++ [Sent fetch; Sent put])%list)
    /\ rq_method put = "PUT"
    /\ rq_url put = event_url event_id
    /\ rq_json put = Some (JObj written)
    /\ (title = None -> written !! "summary" = current !! "summary")
    /\ (description = None -> written !! "description" = current !! "description")
    /\ (location = None -> written !! "location" = current !! "location")
    /\ (start_time = None -> written !! "start" = current !! "start")
    /\ (end_time = None -> written !! "end" = current !! "end")
    /\ (attendees = None -> written !! "attendees" = current !! "attendees")
    /\ (forall k,
          k ∉ ["summary"; "description"; "location"; "start"; "end"; "attendees"] ->
          written !! k = current !! k)
    /\ (forall l,
          location = Some l -> title = None -> start_time = None ->
          end_time = None -> description = None -> attendees = None ->
          written = <[ "location" := JStr l ]> current).
Proof.
  intros fetch Hfetch Hst.
  set (written :=
         overlay "attendees" (attendee_field <$> attendees)
        (overlay "end" ((fun t => time_field t timezone) <$> end_time)
        (overlay "start" ((fun t => time_field t timezone) <$> start_time)
        (overlay "location" (JStr <$> location)
        (overlay "description" (JStr <$> description)
        (overlay "summary" (JStr <$> title) current)))))).
  set (headers := if Py.truthy (JObj written)
                  then <[ "Content-Type" := "application/json" ]>
                         ({[ "Authorization" := bearer ACCESS_TOKEN ]} : gmap string string)
                  else {[ "Authorization" := bearer ACCESS_TOKEN ]}).
  set (put := {| rq_method := "PUT"; rq_url := event_url event_id;
                 rq_params := None; rq_headers := headers;
                 rq_json := Some (JObj written); rq_timeout := None |}).
  exists written, put.
  split; [|split; [reflexivity|split; [reflexivity|split; [reflexivity|]]]].
  - unfold e100_h100_cohere_hackathon_update_calendar_event, _get_google_token.
    unfold io_bind at 1.
    rewrite (_fetch_calendar_data_run _ _ _ _ _ _ _ Hfetch Hst).
    unfold io_bind at 1, io_lift at 1.
    rewrite apply_updates_object. fold written.
    unfold io_bind at 1.
    pose proof (_modify_calendar_data_state ACCESS_TOKEN (event_url event_id)
                  "PUT" (Some (JObj written)) w1 (log ++ [Sent fetch])%list) as Hput.
    cbv zeta in Hput. fold headers in Hput. fold put in Hput.
    rewrite <- app_assoc in Hput. cbn [app] in Hput.
    destruct (_modify_calendar_data _ _ _ _ _ _ _) as [[response|x] st2];
      cbn [snd] in Hput; subst st2; reflexivity.
  - unfold written.
    repeat split;
      try (intros ->; cbn [fmap option_fmap option_map];
           repeat first [ rewrite overlay_other by discriminate
                        | rewrite overlay_None ];
           reflexivity).
    + intros k Hk. rewrite !overlay_other; [reflexivity|..];
        intros ->; apply Hk; repeat constructor.
    + intros l -> -> -> -> -> ->. reflexivity.
Qed.

End Properties.






(** ** The statements at work *)

Import Sample.

(** The windows of the specification's example: an event from 10:30 to
    11:30 on January 1 lies within the first one, an event from 11:00 to
    13:00 crosses its end. *)
Example within_R1 : within inside_R1 [R1; R2] = Ok true.
Proof. vm_compute. reflexivity. Qed.

Example crossing_R1_rejected : within crossing_R1 [R1; R2] = Ok false.
Proof. vm_compute. reflexivity. Qed.

(** The bounds are included: ending with the range is inside, one second
    later is not. *)
Example boundary_included :
  within ends_with_R1 [R1] = Ok true /\ within ends_after_R1 [R1] = Ok false.
Proof. split; vm_compute; reflexivity. Qed.

(** The address skips what the venue does not have. *)
Example address_join :
  match extract main_street with
  | Ok details => details !! "venue_address"
  | Raise _ => None
  end = Some (JStr "123 Main St, Austin").
Proof. vm_compute. reflexivity. Qed.

(** C1: an event whose date does not parse makes the filter raise, where
    the claim has it answer [false]; and so does a range written without
    offset, for an event whose interval is known. *)
Lemma event_falls_within_time_ranges_raises :
  parse bad_date = Raise ValueError
  /\ within bad_date [R1] = Raise ValueError
  /\ (exists s e, parse inside_R1 = Ok (Some s, Some e))
  /\ within inside_R1 [naive_R1] = Raise TypeError.
Proof.
  split; [vm_compute; reflexivity|].
  split; [vm_compute; reflexivity|].
  split; [|vm_compute; reflexivity].
  eexists _, _. vm_compute. reflexivity.
Qed.

Lemma event_falls_within_time_ranges_spec_witness :
  (exists b, within inside_R1 [R1; R2] = Ok b
             /\ (b = true <->
                 Exists (covers (at_ "2024-01-01T10:30:00+00:00")
                                (at_ "2024-01-01T11:30:00+00:00")) [R1; R2]))
  /\ within undated [R1; R2] = Ok false
  /\ within bad_date [R1; R2] = Raise ValueError.
Proof.
  split; [|split].
  - apply (proj1 (event_falls_within_time_ranges_spec
                    fromisoformat str_other inside_R1 [R1; R2])).
    + vm_compute. reflexivity.
    + repeat constructor.
  - apply (proj1 (proj2 (event_falls_within_time_ranges_spec
                           fromisoformat str_other undated [R1; R2]))).
    vm_compute. reflexivity.
  - apply (proj2 (proj2 (event_falls_within_time_ranges_spec
                           fromisoformat str_other bad_date [R1; R2]))).
    vm_compute. reflexivity.
Defined.

Lemma parse_event_datetime_default_end_witness :
  parse open_end
  = Ok (Some (at_ "2024-01-01T10:30:00+00:00"),
        Some (at_ "2024-01-01T13:30:00+00:00")).
Proof.
  exact (parse_event_datetime_default_end fromisoformat str_other
           (list_to_map
              [("name", JStr "Open end");
               ("dates", obj [("start", obj [("localDate", JStr "2024-01-01");
                                             ("localTime", JStr "10:30:00")])])])
           (list_to_map [("start", obj [("localDate", JStr "2024-01-01");
                                        ("localTime", JStr "10:30:00")])])
           (list_to_map [("localDate", JStr "2024-01-01");
                         ("localTime", JStr "10:30:00")])
           (JStr "2024-01-01")
           (at_ "2024-01-01T10:30:00")
           eq_refl eq_refl eq_refl eq_refl eq_refl I).
Defined.

(** At the very end of the calendar the three hours do not fit. *)
Example parse_event_datetime_overflow :
  parse last_evening = Raise OverflowError.
Proof. vm_compute. reflexivity. Qed.

(** C2: one event with an unreadable date empties the whole result.  The
    answer holds an event inside the first window and, after it, one whose
    time is ["7pm"]: the search returns nothing, although without the second
    event it returns the first. *)
Lemma get_concerts_in_time_ranges_drops_all :
  within inside_R1 [R1; R2] = Ok true
  /\ parse bad_date = Raise ValueError
  /\ (search "Toronto" "ON" [R1; R2] None
        ([Reply 200 (Some (answer [inside_R1; bad_date]))], [])).1 = Ok []
  /\ exists details,
       (search "Toronto" "ON" [R1; R2] None
          ([Reply 200 (Some (answer [inside_R1]))], [])).1 = Ok [JObj details]
       /\ details !! "name" = Some (JStr "Inside").
Proof.
  split; [vm_compute; reflexivity|].
  split; [vm_compute; reflexivity|].
  split; [vm_compute; reflexivity|].
  eexists. split; vm_compute; reflexivity.
Qed.

Lemma get_concerts_in_time_ranges_bad_date_witness :
  exists x,
    search "Toronto" "ON" [R1; R2] None
      ([Reply 200 (Some (answer [inside_R1; bad_date]))], [])
    = (Ok [],
       ([], [Sent (concert_request
                     (concert_params show "Toronto" "ON" R1.1 R2.2 None));
             Printed x])).
Proof.
  apply (get_concerts_in_time_ranges_bad_date fromisoformat show show str_other
           scripted scripted_http "Toronto" "ON" [R1; R2] None
           [Reply 200 (Some (answer [inside_R1; bad_date]))] [] []
           R1.1 R2.2 200
           (list_to_map [("_embedded", obj [("events", JArr [inside_R1; bad_date])])])
           (list_to_map [("events", JArr [inside_R1; bad_date])])
           [inside_R1; bad_date] bad_date).
  - discriminate.
  - vm_compute. reflexivity.
  - vm_compute. reflexivity.
  - reflexivity.
  - lia.
  - reflexivity.
  - reflexivity.
  - right. left.
  - vm_compute. reflexivity.
Defined.

Lemma get_concerts_in_time_ranges_covering_window_witness :
  exists overall_start overall_end q,
    overall_start ∈ map fst [R1; R2]
    /\ overall_end ∈ map snd [R1; R2]
    /\ dt_le overall_start R1.1 = Ok true
    /\ dt_le R2.2 overall_end = Ok true
    /\ rq_method q = "GET"
    /\ passes fromisoformat str_other [R1; R2] in_the_gap = false
    /\ passes fromisoformat str_other [R1; R2] inside_R1 = true.
Proof.
  destruct (get_concerts_in_time_ranges_covering_window
              fromisoformat show show str_other scripted scripted_http
              "Toronto" "ON" [R1; R2] None
              [Reply 200 (Some (answer [inside_R1; in_the_gap]))] [])
    as (overall_start & overall_end & q & params & [Hin1 Hmin] & [Hin2 Hmax]
        & [Hget _] & _ & _ & _ & Hout & Hkeep).
  - discriminate.
  - left. repeat constructor.
  - left. repeat constructor.
  - exists overall_start, overall_end, q.
    split; [exact Hin1|]. split; [exact Hin2|].
    split; [apply Hmin; left|]. split; [apply Hmax; right; left|].
    split; [exact Hget|]. split.
    + apply (Hout in_the_gap (at_ "2024-01-03T10:00:00+00:00")
                             (at_ "2024-01-03T11:00:00+00:00")).
      * vm_compute. reflexivity.
      * rewrite <- existsb_covers. vm_compute. discriminate.
    + apply (Hkeep inside_R1 (at_ "2024-01-01T10:30:00+00:00")
                             (at_ "2024-01-01T11:30:00+00:00")).
      * vm_compute. reflexivity.
      * repeat constructor.
      * rewrite <- existsb_covers. vm_compute. reflexivity.
Defined.

(** C4: ranges that mix a naive and an aware bound cannot be ordered; the
    search raises [TypeError] to its caller and sends nothing. *)
Lemma get_concerts_in_time_ranges_mixed_ranges_raise :
  search "Toronto" "ON" [R1; naive_R1] None
    ([Reply 200 (Some (answer [inside_R1]))], [])
  = (Raise TypeError, ([Reply 200 (Some (answer [inside_R1]))], [])).
Proof. vm_compute. reflexivity. Qed.

(** The gap between the two windows lies inside the covering window, and
    an event there is not returned. *)
Example gap_event_excluded :
  covers (at_ "2024-01-03T10:00:00+00:00") (at_ "2024-01-03T11:00:00+00:00")
         (R1.1, R2.2)
  /\ exists details,
       (search "Toronto" "ON" [R1; R2] None
          ([Reply 200 (Some (answer [in_the_gap; inside_R1]))], [])).1
       = Ok [JObj details]
       /\ details !! "name" = Some (JStr "Inside").
Proof.
  split.
  - apply covers_b_spec. vm_compute. reflexivity.
  - eexists. split; vm_compute; reflexivity.
Qed.

Lemma update_calendar_event_writes_back_witness :
  exists written : gmap string json,
    written = <[ "location" := JStr "Room 2" ]>
                (list_to_map
                   [("id", JStr "evt1");
                    ("summary", JStr "Standup");
                    ("description", JStr "Daily sync");
                    ("htmlLink", JStr "https://calendar.example/evt1");
                    ("start", obj [("dateTime", JStr "2024-01-15T10:00:00");
                                   ("timeZone", JStr "America/New_York")]);
                    ("end", obj [("dateTime", JStr "2024-01-15T10:15:00");
                                 ("timeZone", JStr "America/New_York")]);
                    ("attendees", JArr [obj [("email", JStr "ann@example.org")]])])
    /\ written !! "summary" = Some (JStr "Standup")
    /\ written !! "location" = Some (JStr "Room 2").
Proof.
  destruct (update_calendar_event_writes_back str_other (Some "t0k3n")
              store store_http "evt1" None None None None (Some "Room 2") None
              update_timezone calendar calendar [] 200
              (list_to_map
                 [("id", JStr "evt1");
                  ("summary", JStr "Standup");
                  ("description", JStr "Daily sync");
                  ("htmlLink", JStr "https://calendar.example/evt1");
                  ("start", obj [("dateTime", JStr "2024-01-15T10:00:00");
                                 ("timeZone", JStr "America/New_York")]);
                  ("end", obj [("dateTime", JStr "2024-01-15T10:15:00");
                               ("timeZone", JStr "America/New_York")]);
                  ("attendees", JArr [obj [("email", JStr "ann@example.org")]])]))
    as (written & put & _ & _ & _ & _ & Htitle & _ & _ & _ & _ & _ & _ & Honly).
  - vm_compute. reflexivity.
  - lia.
  - exists written. split; [|split].
    + apply (Honly "Room 2"); reflexivity.
    + rewrite (Htitle eq_refl). vm_compute. reflexivity.
    + rewrite (Honly "Room 2") by reflexivity. apply lookup_insert_eq.
Defined.

(** The same against the storing remote side: after the update the stored
    event has the new location and everything else as before. *)
Example update_location_only_stored :
  let run := update "evt1" None None None None (Some "Room 2") None
                    update_timezone (calendar, []) in
  match run.2.1 !! event_url "evt1", standup with
  | Some (JObj stored), JObj before =>
      stored = <[ "location" := JStr "Room 2" ]> before
  | _, _ => False
  end.
Proof. vm_compute. reflexivity. Qed.

(** C7: an event without [summary] and without [htmlLink] is formatted
    with the title ["(No title)"] and the empty [url], which are not
    values of the input. *)
Lemma format_event_to_document_defaults :
  exists doc,
    format untitled = Ok doc
    /\ doc !! "title" = Some (JStr "(No title)")
    /\ doc !! "url" = Some (JStr "")
    /\ Py.get untitled "summary" JNull = Ok JNull
    /\ Py.get untitled "htmlLink" JNull = Ok JNull.
Proof.
  eexists. split; [vm_compute; reflexivity|].
  repeat split; vm_compute; reflexivity.
Qed.

Lemma format_event_to_document_fields_witness :
  exists doc,
    format standup = Ok doc
    /\ doc !! "id" = Some (JStr "evt1")
    /\ doc !! "title" = Some (JStr "Standup")
    /\ doc !! "url" = Some (JStr "https://calendar.example/evt1").
Proof.
  destruct (format standup) as [doc|x] eqn:E; [|vm_compute in E; discriminate].
  exists doc. split; [reflexivity|].
  destruct (format_event_to_document_fields str_other standup doc E)
    as (m & Hm & Hid & Htitle & Hurl).
  injection Hm as <-.
  split; [exact Hid|]. split; [exact Htitle | exact Hurl].
Defined.

Lemma extract_event_details_price_witness :
  (exists details,
      extract undated = Ok details
      /\ details !! "price_min" = Some (JStr "N/A")
      /\ details !! "price_max" = Some (JStr "N/A")
      /\ details !! "currency" = Some (JStr "N/A"))
  /\ (exists details,
         extract priced = Ok details
         /\ details !! "currency" = Some (JStr "USD")).
Proof.
  split.
  - destruct (extract undated) as [details|x] eqn:E; [|vm_compute in E; discriminate].
    exists details. split; [reflexivity|].
    apply (proj1 (extract_event_details_price fromisoformat show str_other
                    (list_to_map [("name", JStr "Undated")]) details E)).
    reflexivity.
  - destruct (extract priced) as [details|x] eqn:E; [|vm_compute in E; discriminate].
    exists details. split; [reflexivity|].
    apply (proj2 (extract_event_details_price fromisoformat show str_other
                    (list_to_map
                       [("name", JStr "Priced");
                        ("priceRanges",
                         JArr [obj [("min", JInt 20); ("max", JInt 80)]])])
                    details E)
             (list_to_map [("min", JInt 20); ("max", JInt 80)]) []);
      reflexivity.
Defined.

Lemma extract_event_details_empty_venues_witness :
  extract no_venues = Raise IndexError
  /\ has_venues no_venues = Ok true.
Proof.
  destruct (extract_event_details_empty_venues fromisoformat show str_other
              (list_to_map [("name", JStr "Nowhere");
                            ("_embedded", obj [("venues", JArr [])])])
              (list_to_map [("venues", JArr [])]))
    as [Hfail Hbranch].
  - vm_compute. reflexivity.
  - split.
    + etransitivity; [apply Hfail; vm_compute; reflexivity|].
      vm_compute. reflexivity.
    + destruct (has_venues no_venues) as [[|]|x] eqn:E.
      * reflexivity.
      * apply Hbranch in E. vm_compute in E. discriminate.
      * vm_compute in E. discriminate.
Defined.
